(** * nRF Desktop HID service module (samples/nrf_desktop/src/services/hids.c)

    A shallow embedding of the module: its two globals that matter for
    reconciliation ([report_mode], [report_enabled]), the registry
    ([report_index]), the transport callbacks ([pm_evt_handler],
    [notif_handler] and its five wrappers), the report encoders
    ([send_mouse_report], [send_keyboard]) and the event-bus entry point
    ([event_handler]).

    Integers are [Z] with the C conversions written out ([u8], [u16], [s8],
    [s16]); local arrays are lists updated by index; the module's globals are
    threaded through a small state monad that also records, in program order,
    every call that leaves the module (log lines, submitted events, transport
    calls) and stops at a failed assertion. *)

From Stdlib Require Import ZArith Lia Bool String.
From stdpp Require Import base decidable option list functions.

Local Open Scope Z_scope.

(** ** Enumerations *)

(** hids.c, [enum report_id]. *)
Inductive report_id :=
| REPORT_ID_RESERVED
| REPORT_ID_MOUSE
| REPORT_ID_KEYBOARD
| REPORT_ID_MPLAYER.

(** hids.c, [enum report_mode] (the tag shares its name with the global
    variable [report_mode], hence the prefix here). *)
Inductive enum_report_mode :=
| REPORT_MODE_PROTOCOL
| REPORT_MODE_BOOT.

(** Modelled from the spec: [enum target_report] is declared in hid_event.h,
    which is not among the sources; the three logical reports
    Mouse, Keyboard, MediaPlayer, under the names hids.c uses for them. *)
Inductive target_report :=
| TARGET_REPORT_MOUSE
| TARGET_REPORT_KEYBOARD
| TARGET_REPORT_MPLAYER.

(** Modelled from the spec: [enum hids_pm_evt] is declared in
    bluetooth/services/hids.h, which is not among the sources; a
    protocol-mode event is EnteredBoot, EnteredReport, or malformed (neither
    of the two).  The handler switches on the two named values and has a
    [default] arm, which every other value of the C enum takes:
    [HIDS_PM_EVT_other]. *)
Inductive hids_pm_evt :=
| HIDS_PM_EVT_BOOT_MODE_ENTERED
| HIDS_PM_EVT_REPORT_MODE_ENTERED
| HIDS_PM_EVT_other (raw : Z).

(** Modelled from the spec: [enum hids_notif_evt] is declared in
    bluetooth/services/hids.h; a notification toggle enables or disables.
    The handler asserts that the value is one of the two named ones. *)
Inductive hids_notif_evt :=
| HIDS_CCCD_EVT_NOTIF_ENABLED
| HIDS_CCCD_EVT_NOTIF_DISABLED
| HIDS_CCCD_EVT_other (raw : Z).

#[global] Instance report_id_eq_dec : EqDecision report_id.
Proof. solve_decision. Defined.
#[global] Instance enum_report_mode_eq_dec : EqDecision enum_report_mode.
Proof. solve_decision. Defined.
#[global] Instance target_report_eq_dec : EqDecision target_report.
Proof. solve_decision. Defined.

(** The C [==] on the enumerations the module compares. *)
Definition mode_eqb (a b : enum_report_mode) : bool :=
  match a, b with
  | REPORT_MODE_PROTOCOL, REPORT_MODE_PROTOCOL
  | REPORT_MODE_BOOT, REPORT_MODE_BOOT => true
  | _, _ => false
  end.

Definition notif_evt_eqb (a b : hids_notif_evt) : bool :=
  match a, b with
  | HIDS_CCCD_EVT_NOTIF_ENABLED, HIDS_CCCD_EVT_NOTIF_ENABLED
  | HIDS_CCCD_EVT_NOTIF_DISABLED, HIDS_CCCD_EVT_NOTIF_DISABLED => true
  | HIDS_CCCD_EVT_other x, HIDS_CCCD_EVT_other y => x =? y
  | _, _ => false
  end.

(** ** Build configuration

    The [IS_ENABLED(CONFIG_DESKTOP_HID_...)] tests of the source, and whether
    [__ASSERT_NO_MSG] is compiled in. *)
Record config := Config {
  CONFIG_DESKTOP_HID_MOUSE : bool;
  CONFIG_DESKTOP_HID_KEYBOARD : bool;
  CONFIG_DESKTOP_HID_MPLAYER : bool;
  CONFIG_ASSERT : bool
}.

(** ** Constants *)

Definition REPORT_SIZE_MOUSE : Z := 5.
Definition REPORT_SIZE_KEYBOARD : Z := 9.
Definition REPORT_SIZE_MPLAYER : Z := 1.
Definition SCHAR_MAX : Z := 127.
Definition SCHAR_MIN : Z := -128.

(** ** C integer conversions *)

Definition u8 (v : Z) : Z := v mod 256.
Definition u16 (v : Z) : Z := v mod 65536.
Definition s8 (v : Z) : Z := (v + 128) mod 256 - 128.
Definition s16 (v : Z) : Z := (v + 32768) mod 65536 - 32768.

(** Zephyr's [min] and [max] macros. *)
Definition min (a b : Z) : Z := if a <? b then a else b.
Definition max (a b : Z) : Z := if a >? b then a else b.

(** ** Input events (hid_event.h, ble_event.h, module_state_event.h) *)

(** Modelled from the spec: [struct hid_mouse_event] is declared in
    hid_event.h, which is not among the sources; signed deltas and an 8-bit
    button bitmap. *)
Record hid_mouse_event := MouseEvent {
  button_bm : Z;
  wheel : Z;
  dx : Z;
  dy : Z
}.

(** Modelled from the spec: [struct hid_keyboard_event] is declared in
    hid_event.h; an 8-bit modifier bitmap and an array of key codes, whose
    length the source pins to 6 with a [static_assert]. *)
Record hid_keyboard_event := KeyboardEvent {
  modifier_bm : Z;
  keys : list Z
}.

Definition is_u8 (v : Z) : bool := (0 <=? v) && (v <? 256).

(** Modelled from the spec: [struct ble_peer_event] is declared in
    ble_event.h, which is not among the sources; a peer is connected,
    disconnected or secured, and carries a connection id.  [notify_hids] has
    a [default] arm for any other state. *)
Inductive peer_state :=
| PEER_STATE_CONNECTED
| PEER_STATE_DISCONNECTED
| PEER_STATE_SECURED
| PEER_STATE_other (raw : Z).

Record ble_peer_event := PeerEvent {
  state : peer_state;
  conn_id : Z
}.

(** Modelled from the spec: [struct module_state_event] is declared in
    module_state_event.h, which is not among the sources; module bring-up is
    outside the specification, so only the two fields that [check_state]
    compares are kept. *)
Inductive module_state :=
| MODULE_STATE_READY
| MODULE_STATE_other (raw : Z).

Record module_state_event := ModuleStateEvent {
  module_id : string;
  mstate : module_state
}.

Definition module_state_eqb (a b : module_state) : bool :=
  match a, b with
  | MODULE_STATE_READY, MODULE_STATE_READY => true
  | MODULE_STATE_other x, MODULE_STATE_other y => x =? y
  | _, _ => false
  end.

(** What the event bus hands to [event_handler]: one of the four event types
    the handler tests for, or an event of any other type. *)
Inductive event_header :=
| hid_mouse_event_of (e : hid_mouse_event)
| hid_keyboard_event_of (e : hid_keyboard_event)
| ble_peer_event_of (e : ble_peer_event)
| module_state_event_of (e : module_state_event)
| other_event_of (type_name : string).

(** ** Calls that leave the module *)

Inductive sent_cb := mouse_report_sent_cb | keyboard_report_sent_cb.

Inductive notif_cb :=
| mouse_notif_handler_cb
| boot_mouse_notif_handler_cb
| keyboard_notif_handler_cb
| boot_keyboard_notif_handler_cb
| mplayer_notif_handler_cb.

Record hids_inp_rep := InpRep {
  id : report_id;
  size : Z;
  handler : notif_cb;
  rep_mask : option (list Z)
}.

(** The fields of [struct hids_init] that [module_init] fills in (the report
    map, a constant byte table, is left out). *)
Record hids_init_obj := HidsInit {
  bcd_hid : Z;
  b_country_code : Z;
  inp_rep_group_init : list hids_inp_rep;
  is_mouse : bool;
  boot_mouse_notif_handler_f : option notif_cb;
  is_kb : bool;
  boot_kb_notif_handler_f : option notif_cb
}.

Inductive effect :=
| SYS_LOG_INF (msg : string)
| SYS_LOG_ERR (msg : string)
| EVENT_SUBMIT_subscription (report_type : target_report) (enabled : bool)
| EVENT_SUBMIT_report_sent (report_type : target_report)
| hids_boot_mouse_inp_rep_send (buttons x y : Z) (cb : sent_cb)
| hids_boot_kb_inp_rep_send (rep : list Z) (len : Z) (cb : sent_cb)
| hids_inp_rep_send (rep_index : nat) (rep : list Z) (len : Z) (cb : sent_cb)
| hids_notify_connected (conn : Z)
| hids_notify_disconnected (conn : Z)
| hids_init (init : hids_init_obj)
| module_set_state (s : module_state).

(** Return values of the transport calls whose result the module inspects. *)
Record externals := Externals {
  hids_notify_connected_ret : Z;
  hids_notify_disconnected_ret : Z;
  hids_init_ret : Z
}.

(** ** Module globals *)

Record globals := Globals {
  report_index : report_id -> nat;
  report_mode : enum_report_mode;
  report_enabled : target_report -> enum_report_mode -> bool;
  initialized : bool
}.

(** Static storage is zero-initialised. *)
Definition init_globals : globals :=
  {| report_index := fun _ => 0%nat;
     report_mode := REPORT_MODE_PROTOCOL;
     report_enabled := fun _ _ => false;
     initialized := false |}.

(** ** The monad: globals, an output trace, and assertion failure *)

Record run (A : Type) := Run {
  value : option A;          (* [None]: stopped at a failed assertion *)
  final : globals;
  trace : list effect
}.
Arguments Run {A} _ _ _.
Arguments value {A} _.
Arguments final {A} _.
Arguments trace {A} _.

Definition M (A : Type) : Type := globals -> run A.

#[global] Instance M_ret : MRet M := fun A a g => Run (Some a) g [].

#[global] Instance M_bind : MBind M := fun A B k m g =>
  let r := m g in
  match value r with
  | None => Run None (final r) (trace r)
  | Some a =>
      let r' := k a (final r) in
      Run (value r') (final r') (trace r ++ trace r')
  end.

Definition get : M globals := fun g => Run (Some g) g [].
Definition put (g : globals) : M unit := fun _ => Run (Some tt) g [].
Definition emit (e : effect) : M unit := fun g => Run (Some tt) g [e].
Definition halt {A} : M A := fun g => Run None g [].
Definition when (b : bool) (m : M unit) : M unit := if b then m else mret tt.

(** Assignments to the globals. *)
Definition with_report_mode (g : globals) (m : enum_report_mode) : globals :=
  {| report_index := report_index g; report_mode := m;
     report_enabled := report_enabled g; initialized := initialized g |}.

Definition with_report_enabled (g : globals) (tr : target_report)
    (mode : enum_report_mode) (v : bool) : globals :=
  {| report_index := report_index g; report_mode := report_mode g;
     report_enabled :=
       <[tr := <[mode := v]> (report_enabled g tr)]> (report_enabled g);
     initialized := initialized g |}.

Definition with_report_index (g : globals) (i : report_id) (pos : nat)
    : globals :=
  {| report_index := <[i := pos]> (report_index g);
     report_mode := report_mode g;
     report_enabled := report_enabled g; initialized := initialized g |}.

Definition with_initialized (g : globals) (b : bool) : globals :=
  {| report_index := report_index g; report_mode := report_mode g;
     report_enabled := report_enabled g; initialized := b |}.

Definition set_report_mode (m : enum_report_mode) : M unit :=
  g ← get; put (with_report_mode g m).

Definition set_report_enabled (tr : target_report) (mode : enum_report_mode)
    (v : bool) : M unit :=
  g ← get; put (with_report_enabled g tr mode v).

Definition set_report_index (i : report_id) (pos : nat) : M unit :=
  g ← get; put (with_report_index g i pos).

Definition set_initialized (b : bool) : M unit :=
  g ← get; put (with_initialized g b).

(** ** Reconciler *)

Section Module.

Variable cfg : config.

Definition __ASSERT_NO_MSG (test : bool) : M unit :=
  if CONFIG_ASSERT cfg then (if test then mret tt else halt) else mret tt.

Definition broadcast_subscription_change (tr : target_report)
    (old_mode new_mode : enum_report_mode) : M unit :=
  g ← get;
  if negb (mode_eqb old_mode new_mode)
     && eqb (report_enabled g tr old_mode) (report_enabled g tr new_mode)
  then
    (* No change in report state. *)
    mret tt
  else
    let enabled := report_enabled g tr new_mode in
    emit (SYS_LOG_INF
            ("Notifications " ++ (if enabled then "en" else "dis") ++ "abled"));;
    emit (EVENT_SUBMIT_subscription tr enabled).

Definition pm_evt_handler (evt : hids_pm_evt) : M unit :=
  g ← get;
  let old_mode := report_mode g in
  match evt with
  | HIDS_PM_EVT_BOOT_MODE_ENTERED =>
      emit (SYS_LOG_INF "Boot mode");;
      set_report_mode REPORT_MODE_BOOT
  | HIDS_PM_EVT_REPORT_MODE_ENTERED =>
      emit (SYS_LOG_INF "Report mode");;
      set_report_mode REPORT_MODE_PROTOCOL
  | HIDS_PM_EVT_other _ => mret tt
  end;;
  g' ← get;
  if negb (mode_eqb (report_mode g') old_mode) then
    when (CONFIG_DESKTOP_HID_MOUSE cfg)
      (broadcast_subscription_change TARGET_REPORT_MOUSE
         old_mode (report_mode g'));;
    when (CONFIG_DESKTOP_HID_KEYBOARD cfg)
      (broadcast_subscription_change TARGET_REPORT_MOUSE
         old_mode (report_mode g'));;
    when (CONFIG_DESKTOP_HID_MPLAYER cfg)
      (broadcast_subscription_change TARGET_REPORT_MOUSE
         old_mode (report_mode g'))
  else mret tt.

Definition notif_handler (evt : hids_notif_evt) (tr : target_report)
    (mode : enum_report_mode) : M unit :=
  __ASSERT_NO_MSG (notif_evt_eqb evt HIDS_CCCD_EVT_NOTIF_ENABLED
                   || notif_evt_eqb evt HIDS_CCCD_EVT_NOTIF_DISABLED);;
  let enabled := notif_evt_eqb evt HIDS_CCCD_EVT_NOTIF_ENABLED in
  g ← get;
  let changed := negb (eqb (report_enabled g tr mode) enabled) in
  set_report_enabled tr mode enabled;;
  if mode_eqb (report_mode g) mode && changed then
    broadcast_subscription_change tr mode mode
  else mret tt.

Definition mouse_notif_handler (evt : hids_notif_evt) : M unit :=
  emit (SYS_LOG_INF EmptyString);;
  notif_handler evt TARGET_REPORT_MOUSE REPORT_MODE_PROTOCOL.

Definition boot_mouse_notif_handler (evt : hids_notif_evt) : M unit :=
  emit (SYS_LOG_INF EmptyString);;
  notif_handler evt TARGET_REPORT_MOUSE REPORT_MODE_BOOT.

Definition keyboard_notif_handler (evt : hids_notif_evt) : M unit :=
  emit (SYS_LOG_INF EmptyString);;
  notif_handler evt TARGET_REPORT_KEYBOARD REPORT_MODE_PROTOCOL.

Definition boot_keyboard_notif_handler (evt : hids_notif_evt) : M unit :=
  emit (SYS_LOG_INF EmptyString);;
  notif_handler evt TARGET_REPORT_KEYBOARD REPORT_MODE_BOOT.

Definition mplayer_notif_handler (evt : hids_notif_evt) : M unit :=
  emit (SYS_LOG_INF EmptyString);;
  notif_handler evt TARGET_REPORT_MPLAYER REPORT_MODE_PROTOCOL.

(** ** Report encoders and transport dispatch *)

(** Indeterminate initial contents of a local array of [n] bytes. *)
Variable stack : nat -> Z.

Definition alloca (n : Z) : list Z := map stack (seq 0 (Z.to_nat n)).

(** Array read at a constant index. *)
Definition rd (a : list Z) (i : nat) : Z := default 0 (a !! i).

(** [memcpy(&dst[off], &src[0], n)]. *)
Definition memcpy (dst : list Z) (off : nat) (src : list Z) (n : nat) : list Z :=
  take off dst ++ take n src ++ drop (off + n) dst.

(** Zephyr's misc/byteorder.h: [dst[0] = val; dst[1] = val >> 8;] on a
    [u16_t val] and [u8_t dst[2]]. *)
Definition sys_put_le16 (val : Z) (dst : list Z) : list Z :=
  let val := u16 val in
  <[1%nat := u8 (Z.shiftr val 8)]> (<[0%nat := u8 val]> dst).

Definition mouse_report_sent : M unit :=
  emit (EVENT_SUBMIT_report_sent TARGET_REPORT_MOUSE).

Definition send_mouse_report (event : hid_mouse_event) : M unit :=
  g ← get;
  if mode_eqb (report_mode g) REPORT_MODE_BOOT then
    let x := s8 (max (min (dx event) SCHAR_MAX) SCHAR_MIN) in
    let y := s8 (max (min (dy event) SCHAR_MAX) SCHAR_MIN) in
    emit (hids_boot_mouse_inp_rep_send (button_bm event) x y
            mouse_report_sent_cb)
  else
    let wheel := s16 (max (min (wheel event) 0x7f) (-0x7f)) in
    let x := s16 (max (min (dx event) 0x07ff) (-0x07ff)) in
    let y := s16 (max (min (dy event) 0x07ff) (-0x07ff)) in
    (* Convert to little-endian. *)
    let x_buff := sys_put_le16 x (alloca 2) in
    let y_buff := sys_put_le16 y (alloca 2) in
    (* Encode report. *)
    let buffer := alloca REPORT_SIZE_MOUSE in
    let buffer := <[0%nat := button_bm event]> buffer in
    let buffer := <[1%nat := u8 wheel]> buffer in
    let buffer := <[2%nat := rd x_buff 0]> buffer in
    let buffer :=
      <[3%nat := u8 (Z.lor (Z.shiftl (rd y_buff 0) 4)
                           (Z.land (rd x_buff 1) 0x0f))]> buffer in
    let buffer :=
      <[4%nat := u8 (Z.lor (Z.shiftl (rd y_buff 1) 4)
                           (Z.shiftr (rd y_buff 0) 4))]> buffer in
    emit (hids_inp_rep_send (report_index g REPORT_ID_MOUSE)
            buffer REPORT_SIZE_MOUSE mouse_report_sent_cb).

Definition keyboard_report_sent : M unit :=
  emit (EVENT_SUBMIT_report_sent TARGET_REPORT_KEYBOARD).

(** The transport completing a send: the callback passed along with it. *)
Definition report_sent (cb : sent_cb) : M unit :=
  match cb with
  | mouse_report_sent_cb => mouse_report_sent
  | keyboard_report_sent_cb => keyboard_report_sent
  end.

Definition send_keyboard (event : hid_keyboard_event) : M unit :=
  let report := alloca REPORT_SIZE_KEYBOARD in
  (* Modifiers *)
  let report := <[0%nat := modifier_bm event]> report in
  (* Reserved *)
  let report := <[1%nat := 0]> report in
  (* Pressed keys *)
  let report := memcpy report 2 (keys event) 6 in
  (* Led *)
  let report := <[8%nat := 0]> report in
  g ← get;
  if mode_eqb (report_mode g) REPORT_MODE_BOOT then
    emit (hids_boot_kb_inp_rep_send report (REPORT_SIZE_KEYBOARD - 1)
            keyboard_report_sent_cb)
  else
    emit (hids_inp_rep_send (report_index g REPORT_ID_KEYBOARD)
            report REPORT_SIZE_KEYBOARD keyboard_report_sent_cb).

(** ** Initialisation, peer lifecycle and the event-bus entry point *)

Variable ext : externals.

Definition mouse_mask : list Z := [0x01].

Definition module_init : M Z :=
  let reports := [] in
  let ir_pos := 0%nat in
  '(reports, ir_pos) ←
    (if CONFIG_DESKTOP_HID_MOUSE cfg then
       set_report_index REPORT_ID_MOUSE ir_pos;;
       mret (reports ++ [InpRep REPORT_ID_MOUSE REPORT_SIZE_MOUSE
                           mouse_notif_handler_cb (Some mouse_mask)],
             S ir_pos)
     else mret (reports, ir_pos));
  '(reports, ir_pos) ←
    (if CONFIG_DESKTOP_HID_KEYBOARD cfg then
       set_report_index REPORT_ID_KEYBOARD ir_pos;;
       mret (reports ++ [InpRep REPORT_ID_KEYBOARD REPORT_SIZE_KEYBOARD
                           keyboard_notif_handler_cb None],
             S ir_pos)
     else mret (reports, ir_pos));
  '(reports, ir_pos) ←
    (if CONFIG_DESKTOP_HID_MPLAYER cfg then
       set_report_index REPORT_ID_MPLAYER ir_pos;;
       mret (reports ++ [InpRep REPORT_ID_MPLAYER REPORT_SIZE_MPLAYER
                           mplayer_notif_handler_cb None],
             S ir_pos)
     else mret (reports, ir_pos));
  (* Boot protocol setup *)
  let mouse := CONFIG_DESKTOP_HID_MOUSE cfg in
  let kb := CONFIG_DESKTOP_HID_KEYBOARD cfg in
  emit (hids_init
          {| bcd_hid := 0x0101;
             b_country_code := 0x00;
             inp_rep_group_init := reports;
             is_mouse := mouse;
             boot_mouse_notif_handler_f :=
               if mouse then Some boot_mouse_notif_handler_cb else None;
             is_kb := kb;
             boot_kb_notif_handler_f :=
               if kb then Some boot_keyboard_notif_handler_cb else None |});;
  mret (hids_init_ret ext).

Definition notify_hids (event : ble_peer_event) : M unit :=
  err ←
    match state event with
    | PEER_STATE_CONNECTED =>
        emit (hids_notify_connected (conn_id event));;
        mret (hids_notify_connected_ret ext)
    | PEER_STATE_DISCONNECTED =>
        emit (hids_notify_disconnected (conn_id event));;
        mret (hids_notify_disconnected_ret ext)
    | PEER_STATE_SECURED =>
        (* No action *)
        mret 0
    | PEER_STATE_other _ =>
        __ASSERT_NO_MSG false;;
        mret 0
    end;
  if negb (err =? 0) then
    emit (SYS_LOG_ERR "Failed to notify the HID service about the connection")
  else mret tt.

(** [check_state(event, MODULE_ID(ble_state), MODULE_STATE_READY)]. *)
Definition check_state (event : module_state_event) (module : string)
    (s : module_state) : bool :=
  module_state_eqb (mstate event) s && String.eqb (module_id event) module.

(** The handler's return value is [false] on every path. *)
Definition event_handler (eh : event_header) : M bool :=
  match eh with
  | hid_mouse_event_of e =>
      if CONFIG_DESKTOP_HID_MOUSE cfg then
        send_mouse_report e;; mret false
      else
        __ASSERT_NO_MSG false;; mret false
  | hid_keyboard_event_of e =>
      if CONFIG_DESKTOP_HID_KEYBOARD cfg then
        send_keyboard e;; mret false
      else
        __ASSERT_NO_MSG false;; mret false
  | ble_peer_event_of e =>
      notify_hids e;; mret false
  | module_state_event_of event =>
      if check_state event "ble_state" MODULE_STATE_READY then
        g ← get;
        __ASSERT_NO_MSG (negb (initialized g));;
        set_initialized true;;
        err ← module_init;
        if negb (err =? 0) then
          emit (SYS_LOG_ERR "service init failed");;
          mret false
        else
          emit (SYS_LOG_INF "service initialized");;
          emit (module_set_state MODULE_STATE_READY);;
          mret false
      else mret false
  | other_event_of _ =>
      (* If event is unhandled, unsubscribe. *)
      __ASSERT_NO_MSG false;;
      mret false
  end.

End Module.

(** The transport invoking the callbacks registered by [module_init]. *)
Inductive transport_event :=
| protocol_mode_event (evt : hids_pm_evt)
| notification_event (cb : notif_cb) (evt : hids_notif_evt).

Definition dispatch (cfg : config) (e : transport_event) : M unit :=
  match e with
  | protocol_mode_event evt => pm_evt_handler cfg evt
  | notification_event mouse_notif_handler_cb evt =>
      mouse_notif_handler cfg evt
  | notification_event boot_mouse_notif_handler_cb evt =>
      boot_mouse_notif_handler cfg evt
  | notification_event keyboard_notif_handler_cb evt =>
      keyboard_notif_handler cfg evt
  | notification_event boot_keyboard_notif_handler_cb evt =>
      boot_keyboard_notif_handler cfg evt
  | notification_event mplayer_notif_handler_cb evt =>
      mplayer_notif_handler cfg evt
  end.

(** The callbacks [module_init] registers under a configuration. *)
Definition registered (cfg : config) (cb : notif_cb) : bool :=
  match cb with
  | mouse_notif_handler_cb | boot_mouse_notif_handler_cb =>
      CONFIG_DESKTOP_HID_MOUSE cfg
  | keyboard_notif_handler_cb | boot_keyboard_notif_handler_cb =>
      CONFIG_DESKTOP_HID_KEYBOARD cfg
  | mplayer_notif_handler_cb => CONFIG_DESKTOP_HID_MPLAYER cfg
  end.

(** Globals after a sequence of transport events, from a given start. *)
Fixpoint after (cfg : config) (es : list transport_event) (g : globals)
    : globals :=
  match es with
  | [] => g
  | e :: es' => after cfg es' (final (dispatch cfg e g))
  end.

(** ** Vocabulary of the specification *)

Definition EffectiveSubscription (g : globals) (tr : target_report) : bool :=
  report_enabled g tr (report_mode g).

(** The [hid_report_subscription_event]s in a trace, in order. *)
Definition subscription_events (t : list effect)
    : list (target_report * bool) :=
  omap (fun e => match e with
                 | EVENT_SUBMIT_subscription tr en => Some (tr, en)
                 | _ => None
                 end) t.

Definition log_lines (t : list effect) : list string :=
  omap (fun e => match e with
                 | SYS_LOG_INF msg | SYS_LOG_ERR msg => Some msg
                 | _ => None
                 end) t.

(** The calls into either send path (boot or indexed) in a trace. *)
Definition is_send_call (e : effect) : bool :=
  match e with
  | hids_boot_mouse_inp_rep_send _ _ _ _
  | hids_boot_kb_inp_rep_send _ _ _
  | hids_inp_rep_send _ _ _ _ => true
  | _ => false
  end.

Definition send_calls (t : list effect) : list effect :=
  List.filter is_send_call t.

(** The mode a protocol-mode event names, if any. *)
Definition entered (evt : hids_pm_evt) : option enum_report_mode :=
  match evt with
  | HIDS_PM_EVT_BOOT_MODE_ENTERED => Some REPORT_MODE_BOOT
  | HIDS_PM_EVT_REPORT_MODE_ENTERED => Some REPORT_MODE_PROTOCOL
  | HIDS_PM_EVT_other _ => None
  end.

(** The CCCD event of a toggle to [enabled]. *)
Definition toggle (enabled : bool) : hids_notif_evt :=
  if enabled then HIDS_CCCD_EVT_NOTIF_ENABLED else HIDS_CCCD_EVT_NOTIF_DISABLED.

(** Saturation of [v] to the range [lo, hi]. *)
Definition clamp (lo hi v : Z) : Z := Z.max lo (Z.min hi v).

(** The two log lines of the reconciler. *)
Definition subscription_log (enabled : bool) : effect :=
  SYS_LOG_INF
    ("Notifications " ++ (if enabled then "en" else "dis") ++ "abled").

Definition mode_log (m : enum_report_mode) : effect :=
  SYS_LOG_INF match m with
              | REPORT_MODE_BOOT => "Boot mode"
              | REPORT_MODE_PROTOCOL => "Report mode"
              end.

(** Bounded universal quantification over [lo, lo + n), as a test. *)
Fixpoint forall_range (n : nat) (lo : Z) (p : Z -> bool) : bool :=
  match n with
  | O => true
  | S k => p lo && forall_range k (lo + 1) p
  end.

(** Unpacking of the two 12-bit fields of a report-mode mouse report. *)
Definition sign_extend12 (v : Z) : Z :=
  if Z.testbit v 11 then v - 4096 else v.

Definition unpack_x (byte2 byte3 : Z) : Z :=
  sign_extend12 (Z.lor byte2 (Z.shiftl (Z.land byte3 0x0f) 8)).

Definition unpack_y (byte3 byte4 : Z) : Z :=
  sign_extend12 (Z.lor (Z.shiftr byte3 4) (Z.shiftl byte4 4)).

(** Configurations and inputs used in the examples. *)
Definition mouse_keyboard_cfg : config := Config true true false true.
Definition keyboard_cfg : config := Config false true false true.
Definition no_stack : nat -> Z := fun _ => 0xAA.
Definition no_ext : externals := Externals 0 0 0.

(** Tests run over a whole range by [forall_range]: what two nibbles packed
    into a byte read back as, and what the encoder's byte operations make of
    one 12-bit field and of the wheel. *)
Definition nibbles_ok (h l : Z) : bool :=
  let b := Z.lor (Z.shiftl h 4) l in
  (Z.land b 15 =? l) && (Z.shiftr b 4 =? h) && (0 <=? b) && (b <? 256).

Definition field12_ok (v : Z) : bool :=
  (u8 (u16 v) =? Z.land v 0xff)
  && (Z.land (u8 (u16 v)) 15 =? Z.land v 0x0f)
  && (Z.land (u8 (Z.shiftr (u16 v) 8)) 0x0f =? Z.land (Z.shiftr v 8) 0x0f)
  && (u8 (Z.lor (Z.shiftl (u8 (Z.shiftr (u16 v) 8)) 4)
                (Z.shiftr (u8 (u16 v)) 4))
      =? Z.land (Z.shiftr v 4) 0xff)
  && (sign_extend12
        (Z.lor (Z.land v 0xff) (Z.shiftl (Z.land (Z.shiftr v 8) 0x0f) 8))
      =? v)
  && (sign_extend12
        (Z.lor (Z.land v 0x0f) (Z.shiftl (Z.land (Z.shiftr v 4) 0xff) 4))
      =? v).

Definition wheel_ok (w : Z) : bool :=
  (u8 (s16 w) =? Z.land w 0xff) && (s8 (Z.land w 0xff) =? w)
  && (0 <=? Z.land w 0xff) && (Z.land w 0xff <? 256).

(** Unfolding of the reconciler down to the monad's operations. *)
Ltac unfold_handlers :=
  cbv [pm_evt_handler notif_handler broadcast_subscription_change
       __ASSERT_NO_MSG set_report_mode set_report_enabled when
       mbind mret M_bind M_ret get put emit halt].

(** ** Sequences of transport events *)

(** The handlers run one after the other, in the monad: a failed assertion
    stops the sequence. *)
Fixpoint run_events (cfg : config) (es : list transport_event) : M unit :=
  match es with
  | [] => mret tt
  | e :: es' => dispatch cfg e;; run_events cfg es'
  end.

(** What a listener of [hid_report_subscription_event] holds for each report
    after the submitted events, starting from [v]. *)
Definition listener_view (evs : list (target_report * bool))
    (v : target_report -> bool) : target_report -> bool :=
  fold_left (fun v e => <[fst e := snd e]> v) evs v.

(** The matrix entry a registered callback writes. *)
Definition target_of (cb : notif_cb) : target_report * enum_report_mode :=
  match cb with
  | mouse_notif_handler_cb => (TARGET_REPORT_MOUSE, REPORT_MODE_PROTOCOL)
  | boot_mouse_notif_handler_cb => (TARGET_REPORT_MOUSE, REPORT_MODE_BOOT)
  | keyboard_notif_handler_cb => (TARGET_REPORT_KEYBOARD, REPORT_MODE_PROTOCOL)
  | boot_keyboard_notif_handler_cb => (TARGET_REPORT_KEYBOARD, REPORT_MODE_BOOT)
  | mplayer_notif_handler_cb => (TARGET_REPORT_MPLAYER, REPORT_MODE_PROTOCOL)
  end.

(** Only callbacks that [module_init] registered are invoked. *)
Definition registered_event (cfg : config) (e : transport_event) : bool :=
  match e with
  | protocol_mode_event _ => true
  | notification_event cb _ => registered cfg cb
  end.

Definition report_configured (cfg : config) (tr : target_report) : bool :=
  match tr with
  | TARGET_REPORT_MOUSE => CONFIG_DESKTOP_HID_MOUSE cfg
  | TARGET_REPORT_KEYBOARD => CONFIG_DESKTOP_HID_KEYBOARD cfg
  | TARGET_REPORT_MPLAYER => CONFIG_DESKTOP_HID_MPLAYER cfg
  end.

(** The protocol mode named by the last named protocol-mode event. *)
Definition last_entered (es : list transport_event) (m : enum_report_mode)
    : enum_report_mode :=
  fold_left (fun m e => match e with
                        | protocol_mode_event evt => default m (entered evt)
                        | notification_event _ _ => m
                        end) es m.

(** Whether a CCCD event is one of the two the handler asserts. *)
Definition valid_notif_evt (evt : hids_notif_evt) : bool :=
  notif_evt_eqb evt HIDS_CCCD_EVT_NOTIF_ENABLED
  || notif_evt_eqb evt HIDS_CCCD_EVT_NOTIF_DISABLED.

(** The number of configured reports. *)
Definition configured_count (cfg : config) : nat :=
  (Nat.b2n (CONFIG_DESKTOP_HID_MOUSE cfg)
   + Nat.b2n (CONFIG_DESKTOP_HID_KEYBOARD cfg)
   + Nat.b2n (CONFIG_DESKTOP_HID_MPLAYER cfg))%nat.

(** The module-state event that triggers initialisation. *)
Definition ble_state_ready : event_header :=
  module_state_event_of (ModuleStateEvent "ble_state" MODULE_STATE_READY).

(** The [hids_init] calls in a trace. *)
Definition hids_init_calls (t : list effect) : list hids_init_obj :=
  omap (fun e => match e with hids_init init => Some init | _ => None end) t.

(** The numeric value of a report ID. *)
Definition report_id_value (i : report_id) : Z :=
  match i with
  | REPORT_ID_RESERVED => 0
  | REPORT_ID_MOUSE => 1
  | REPORT_ID_KEYBOARD => 2
  | REPORT_ID_MPLAYER => 3
  end.

(** ** The report map

    The constant table of [module_init], with its conditional blocks. *)

Definition USAGE_PAGE_MOUSE_XY : Z := 0x01.
Definition USAGE_PAGE_MOUSE_WHEEL : Z := 0x01.
Definition USAGE_PAGE_KEYBOARD : Z := 0x07.
Definition USAGE_PAGE_LEDS : Z := 0x08.
Definition USAGE_PAGE_MOUSE_BUTTONS : Z := 0x09.
Definition USAGE_PAGE_MPLAYER : Z := 0x0C.

Definition report_map_mouse : list Z :=
  [ 0x05; 0x01;     (* Usage Page (Generic Desktop) *)
    0x09; 0x02;     (* Usage (Mouse) *)
    0xA1; 0x01;     (* Collection (Application) *)
    0x09; 0x01;       (* Usage (Pointer) *)
    0xA1; 0x00;       (* Collection (Physical) *)
    0x85; report_id_value REPORT_ID_MOUSE;
    0x75; 0x01;         (* Report Size (1) *)
    0x95; 0x08;         (* Report Count (8) *)
    0x05; USAGE_PAGE_MOUSE_BUTTONS;
    0x19; 0x01;         (* Usage Minimum (1) *)
    0x29; 0x08;         (* Usage Maximum (8) *)
    0x15; 0x00;         (* Logical Minimum (0) *)
    0x25; 0x01;         (* Logical Maximum (1) *)
    0x81; 0x02;         (* Input (Data, Variable, Absolute) *)
    0x75; 0x08;         (* Report Size (8) *)
    0x95; 0x01;         (* Report Count (1) *)
    0x05; USAGE_PAGE_MOUSE_WHEEL;
    0x09; 0x38;         (* Usage (Wheel) *)
    0x15; 0x81;         (* Logical Minimum (-127) *)
    0x25; 0x7F;         (* Logical Maximum (127) *)
    0x81; 0x06;         (* Input (Data, Variable, Relative) *)
    0x75; 0x0C;         (* Report Size (12) *)
    0x95; 0x02;         (* Report Count (2) *)
    0x05; USAGE_PAGE_MOUSE_XY;
    0x09; 0x30;         (* Usage (X) *)
    0x09; 0x31;         (* Usage (Y) *)
    0x16; 0x01; 0xF8;
    0x26; 0xFF; 0x07;
    0x81; 0x06;         (* Input (Data, Variable, Relative) *)
    0xC0;             (* End Collection (Physical) *)
    0xC0 ].         (* End Collection (Application) *)

Definition report_map_keyboard : list Z :=
  [ 0x05; 0x01;     (* Usage Page (Generic Desktop) *)
    0x09; 0x06;
    0xA1; 0x01;     (* Collection (Application) *)
    0x85; report_id_value REPORT_ID_KEYBOARD;
    (* Keyboard - Modifiers *)
    0x75; 0x01;       (* Report Size (1) *)
    0x95; 0x08;       (* Report Count (8) *)
    0x05; USAGE_PAGE_KEYBOARD;
    0x19; 0xe0;       (* Usage Minimum (Left Ctrl) *)
    0x29; 0xe7;       (* Usage Maximum (Right GUI) *)
    0x15; 0x00;       (* Logical Minimum (0) *)
    0x25; 0x01;       (* Logical Maximum (1) *)
    0x81; 0x02;       (* Input (Data, Variable, Absolute) *)
    (* Keyboard - Reserved *)
    0x75; 0x08;       (* Report Size (8) *)
    0x95; 0x01;       (* Report Count (1) *)
    0x81; 0x01;       (* Input (Constant) *)
    (* Keyboard - Keys *)
    0x75; 0x08;       (* Report Size (8) *)
    0x95; 0x06;       (* Report Count (6) *)
    0x05; USAGE_PAGE_KEYBOARD;
    0x15; 0x00;       (* Logical Minimum (0) *)
    0x25; 0x65;       (* Logical Maximum (101) *)
    0x19; 0x00;       (* Usage Minimum (0) *)
    0x29; 0x65;       (* Usage Maximum (101) *)
    0x81; 0x00;       (* Input (Data, Array) *)
    (* Keyboard - LEDs *)
    0x95; 0x05;       (* Report Count (5) *)
    0x75; 0x01;       (* Report Size (1) *)
    0x05; USAGE_PAGE_LEDS;
    0x19; 0x01;       (* Usage Minimum (1) *)
    0x29; 0x05;       (* Usage Maximum (5) *)
    0x91; 0x02;       (* Output (Data, Variable, Absolute) *)
    (* Keyboard - LEDs padding *)
    0x95; 0x01;       (* Report Count (1) *)
    0x75; 0x03;       (* Report Size (3) (padding) *)
    0x91; 0x01;
    0xC0 ].         (* End Collection (Application) *)

Definition report_map_mplayer : list Z :=
  [ 0x05; USAGE_PAGE_MPLAYER;
    0x09; 0x01;     (* Usage (Consumer Control) *)
    0xA1; 0x01;     (* Collection (Application) *)
    0x85; report_id_value REPORT_ID_MPLAYER;
    0x15; 0x00;       (* Logical minimum (0) *)
    0x25; 0x01;       (* Logical maximum (1) *)
    0x75; 0x01;       (* Report Size (1) *)
    0x95; 0x01;       (* Report Count (1) *)
    0x09; 0xCD;       (* Usage (Play/Pause) *)
    0x81; 0x06;
    0x0A; 0x83; 0x01; (* Usage (Consumer Control Configuration) *)
    0x81; 0x06;
    0x09; 0xB5;       (* Usage (Scan Next Track) *)
    0x81; 0x06;
    0x09; 0xB6;       (* Usage (Scan Previous Track) *)
    0x81; 0x06;
    0x09; 0xEA;       (* Usage (Volume Down) *)
    0x81; 0x06;
    0x09; 0xE9;       (* Usage (Volume Up) *)
    0x81; 0x06;
    0x0A; 0x25; 0x02; (* Usage (AC Forward) *)
    0x81; 0x06;
    0x0A; 0x24; 0x02; (* Usage (AC Back) *)
    0x81; 0x06;
    0xC0 ].         (* End Collection *)

Definition report_map (cfg : config) : list Z :=
  (if CONFIG_DESKTOP_HID_MOUSE cfg then report_map_mouse else [])
  ++ (if CONFIG_DESKTOP_HID_KEYBOARD cfg then report_map_keyboard else [])
  ++ (if CONFIG_DESKTOP_HID_MPLAYER cfg then report_map_mplayer else []).

(** *** Reading a report map

    The reader a HID host applies to the table (HID 1.11, section 6.2.2):
    short items made of a prefix byte (data length in bits 0-1, type in bits
    2-3, tag in bits 4-7) and 0, 1, 2 or 4 little-endian data bytes; global
    items set the state that each Input or Output main item turns into a
    field of the current report. *)

Record hid_item := HidItem {
  item_type : Z;      (* 0 main, 1 global, 2 local *)
  item_tag : Z;
  item_data : list Z
}.

Definition item_data_length (prefix : Z) : nat :=
  match Z.land prefix 3 with
  | 0 => 0
  | 1 => 1
  | 2 => 2
  | _ => 4
  end.

Fixpoint parse_items (fuel : nat) (bytes : list Z) : option (list hid_item) :=
  match bytes with
  | [] => Some []
  | prefix :: rest =>
      match fuel with
      | O => None
      | S fuel' =>
          let n := item_data_length prefix in
          if (length rest <? n)%nat then None
          else
            match parse_items fuel' (drop n rest) with
            | None => None
            | Some items =>
                Some (HidItem (Z.land (Z.shiftr prefix 2) 3)
                              (Z.shiftr prefix 4) (take n rest) :: items)
            end
      end
  end.

Definition le_unsigned (data : list Z) : Z :=
  foldr (fun b acc => b + 256 * acc) 0 data.

Definition le_signed (data : list Z) : Z :=
  let v := le_unsigned data in
  let bits := 8 * Z.of_nat (length data) in
  if (0 <? bits) && (2 ^ (bits - 1) <=? v) then v - 2 ^ bits else v.

Inductive field_kind := InputField | OutputField.

Record report_field := ReportField {
  f_kind : field_kind;
  f_report_id : Z;
  f_usage_page : Z;
  f_size : Z;          (* bits per element *)
  f_count : Z;         (* number of elements *)
  f_min : Z;
  f_max : Z
}.

Record reader_state := ReaderState {
  rs_usage_page : Z;
  rs_logical_min : Z;
  rs_logical_max : Z;
  rs_report_size : Z;
  rs_report_id : Z;
  rs_report_count : Z;
  rs_depth : Z;              (* open collections *)
  rs_fields : list report_field
}.

Definition reader_init : reader_state := ReaderState 0 0 0 0 0 0 0 [].

Definition add_field (k : field_kind) (s : reader_state) : reader_state :=
  ReaderState (rs_usage_page s) (rs_logical_min s) (rs_logical_max s)
    (rs_report_size s) (rs_report_id s) (rs_report_count s) (rs_depth s)
    (rs_fields s ++
     [ReportField k (rs_report_id s) (rs_usage_page s) (rs_report_size s)
        (rs_report_count s) (rs_logical_min s) (rs_logical_max s)]).

Definition read_item (s : option reader_state) (it : hid_item)
    : option reader_state :=
  match s with
  | None => None
  | Some s =>
      let u := le_unsigned (item_data it) in
      match item_type it, item_tag it with
      | 0, 8 => Some (add_field InputField s)
      | 0, 9 => Some (add_field OutputField s)
      | 0, 10 =>
          Some (ReaderState (rs_usage_page s) (rs_logical_min s)
                  (rs_logical_max s) (rs_report_size s) (rs_report_id s)
                  (rs_report_count s) (rs_depth s + 1) (rs_fields s))
      | 0, 12 =>
          if rs_depth s <=? 0 then None
          else
            Some (ReaderState (rs_usage_page s) (rs_logical_min s)
                    (rs_logical_max s) (rs_report_size s) (rs_report_id s)
                    (rs_report_count s) (rs_depth s - 1) (rs_fields s))
      | 1, 0 =>
          Some (ReaderState u (rs_logical_min s) (rs_logical_max s)
                  (rs_report_size s) (rs_report_id s) (rs_report_count s)
                  (rs_depth s) (rs_fields s))
      | 1, 1 =>
          Some (ReaderState (rs_usage_page s) (le_signed (item_data it))
                  (rs_logical_max s) (rs_report_size s) (rs_report_id s)
                  (rs_report_count s) (rs_depth s) (rs_fields s))
      | 1, 2 =>
          Some (ReaderState (rs_usage_page s) (rs_logical_min s)
                  (le_signed (item_data it)) (rs_report_size s)
                  (rs_report_id s) (rs_report_count s) (rs_depth s)
                  (rs_fields s))
      | 1, 7 =>
          Some (ReaderState (rs_usage_page s) (rs_logical_min s)
                  (rs_logical_max s) u (rs_report_id s) (rs_report_count s)
                  (rs_depth s) (rs_fields s))
      | 1, 8 =>
          Some (ReaderState (rs_usage_page s) (rs_logical_min s)
                  (rs_logical_max s) (rs_report_size s) u (rs_report_count s)
                  (rs_depth s) (rs_fields s))
      | 1, 9 =>
          Some (ReaderState (rs_usage_page s) (rs_logical_min s)
                  (rs_logical_max s) (rs_report_size s) (rs_report_id s) u
                  (rs_depth s) (rs_fields s))
      | 2, _ => Some s          (* usages *)
      | _, _ => None
      end
  end.

(** The fields a report map declares, when it is a well-formed sequence of
    items with balanced collections. *)
Definition read_report_map (bytes : list Z) : option (list report_field) :=
  match parse_items (length bytes) bytes with
  | None => None
  | Some items =>
      match fold_left read_item items (Some reader_init) with
      | Some s => if rs_depth s =? 0 then Some (rs_fields s) else None
      | None => None
      end
  end.

Definition field_kind_eqb (a b : field_kind) : bool :=
  match a, b with
  | InputField, InputField | OutputField, OutputField => true
  | _, _ => false
  end.

(** The fields of one kind declared for a report ID, and their total width
    in bits. *)
Definition fields_of (k : field_kind) (rid : Z) (fs : list report_field)
    : list report_field :=
  List.filter (fun f => field_kind_eqb (f_kind f) k && (f_report_id f =? rid))
    fs.

Definition bits_of (fs : list report_field) : Z :=
  foldr (fun f acc => f_size f * f_count f + acc) 0 fs.

Definition within (f : report_field) (v : Z) : Prop :=
  f_min f <= v <= f_max f.

(** Pick, among the three reports [module_init] can register, the one a
    goal [exists rep, In rep _ /\ _ = report_id_value (id rep)] is about. *)
Ltac find_registered_report :=
  first
    [exists (InpRep REPORT_ID_MOUSE REPORT_SIZE_MOUSE
               mouse_notif_handler_cb (Some mouse_mask));
     split; [cbn; auto 10 | reflexivity]
    |exists (InpRep REPORT_ID_KEYBOARD REPORT_SIZE_KEYBOARD
               keyboard_notif_handler_cb None);
     split; [cbn; auto 10 | reflexivity]
    |exists (InpRep REPORT_ID_MPLAYER REPORT_SIZE_MPLAYER
               mplayer_notif_handler_cb None);
     split; [cbn; auto 10 | reflexivity]].

(** ** Delivery of bus events to the module *)








(** * Properties *)

(** ** Matrix updates and mode comparison *)

Lemma report_enabled_insert_eq (re : target_report -> enum_report_mode -> bool)
    tr mode v :
  (<[tr := <[mode := v]> (re tr)]> re) tr mode = v.
Proof. rewrite !fn_lookup_insert. reflexivity. Qed.

Lemma report_enabled_insert_ne (re : target_report -> enum_report_mode -> bool)
    tr mode v tr' mode' :
  (tr', mode') <> (tr, mode) ->
  (<[tr := <[mode := v]> (re tr)]> re) tr' mode' = re tr' mode'.
Proof.
  intros Hne. destruct (decide (tr = tr')) as [<-|Htr].
  - rewrite fn_lookup_insert.
    destruct (decide (mode = mode')) as [<-|Hm]; [congruence|].
    rewrite fn_lookup_insert_ne; auto.
  - rewrite fn_lookup_insert_ne; auto.
Qed.

Lemma mode_eqb_eq a b : mode_eqb a b = true <-> a = b.
Proof. destruct a, b; cbn; split; congruence. Qed.

Lemma mode_eqb_refl a : mode_eqb a a = true.
Proof. destruct a; reflexivity. Qed.

Lemma mode_eqb_neq a b : a <> b -> mode_eqb a b = false.
Proof. destruct a, b; cbn; congruence. Qed.

Lemma with_report_mode_same g : with_report_mode g (report_mode g) = g.
Proof. destruct g; reflexivity. Qed.

Lemma toggle_enabled enabled :
  notif_evt_eqb (toggle enabled) HIDS_CCCD_EVT_NOTIF_ENABLED = enabled.
Proof. destruct enabled; reflexivity. Qed.

Lemma toggle_disabled enabled :
  notif_evt_eqb (toggle enabled) HIDS_CCCD_EVT_NOTIF_DISABLED = negb enabled.
Proof. destruct enabled; reflexivity. Qed.

(** ** The handlers in closed form *)

Lemma broadcast_subscription_change_run tr old_mode new_mode g :
  broadcast_subscription_change tr old_mode new_mode g =
  Run (Some tt) g
    (if negb (mode_eqb old_mode new_mode)
        && eqb (report_enabled g tr old_mode) (report_enabled g tr new_mode)
     then []
     else [subscription_log (report_enabled g tr new_mode);
           EVENT_SUBMIT_subscription tr (report_enabled g tr new_mode)]).
Proof.
  unfold_handlers. cbn.
  destruct (negb (mode_eqb old_mode new_mode) && _); reflexivity.
Qed.

Lemma notif_handler_run cfg enabled tr mode g :
  notif_handler cfg (toggle enabled) tr mode g =
  Run (Some tt) (with_report_enabled g tr mode enabled)
    (if mode_eqb (report_mode g) mode
        && negb (eqb (report_enabled g tr mode) enabled)
     then [subscription_log enabled; EVENT_SUBMIT_subscription tr enabled]
     else []).
Proof.
  cbv [notif_handler].
  rewrite toggle_enabled, toggle_disabled, orb_negb_r.
  unfold_handlers. destruct (CONFIG_ASSERT cfg); cbn.
  all: destruct (mode_eqb (report_mode g) mode && _); cbn; try reflexivity.
  all: rewrite mode_eqb_refl; cbn; rewrite report_enabled_insert_eq;
    reflexivity.
Qed.

Lemma pm_evt_handler_run cfg evt g :
  pm_evt_handler cfg evt g =
  match entered evt with
  | None => Run (Some tt) g []
  | Some m =>
      let g' := with_report_mode g m in
      let bc := trace (broadcast_subscription_change TARGET_REPORT_MOUSE
                         (report_mode g) m g') in
      Run (Some tt) g'
        (mode_log m ::
         if negb (mode_eqb m (report_mode g)) then
           (if CONFIG_DESKTOP_HID_MOUSE cfg then bc else [])
           ++ (if CONFIG_DESKTOP_HID_KEYBOARD cfg then bc else [])
           ++ (if CONFIG_DESKTOP_HID_MPLAYER cfg then bc else [])
         else [])
  end.
Proof.
  destruct evt; cbn [entered].
  3: { cbv [pm_evt_handler mbind mret M_bind M_ret get]; cbn.
       rewrite mode_eqb_refl. reflexivity. }
  all: cbv [pm_evt_handler mbind mret M_bind M_ret get put emit
            set_report_mode when]; cbn.
  all: destruct (negb _); cbn; [| reflexivity].
  all: destruct (CONFIG_DESKTOP_HID_MOUSE cfg),
         (CONFIG_DESKTOP_HID_KEYBOARD cfg), (CONFIG_DESKTOP_HID_MPLAYER cfg);
    cbn; rewrite ?broadcast_subscription_change_run; cbn;
    rewrite ?app_nil_r; reflexivity.
Qed.

Lemma subscription_events_app t1 t2 :
  subscription_events (t1 ++ t2) =
  subscription_events t1 ++ subscription_events t2.
Proof. apply omap_app. Qed.

(** What a protocol-mode event announces: the Mouse row, and once for each
    configured report. *)
Lemma pm_evt_handler_subscription_events cfg evt g :
  subscription_events (trace (pm_evt_handler cfg evt g)) =
  match entered evt with
  | Some m =>
      if negb (mode_eqb m (report_mode g))
         && negb (eqb (report_enabled g TARGET_REPORT_MOUSE (report_mode g))
                      (report_enabled g TARGET_REPORT_MOUSE m))
      then
        replicate
          (Nat.b2n (CONFIG_DESKTOP_HID_MOUSE cfg)
           + Nat.b2n (CONFIG_DESKTOP_HID_KEYBOARD cfg)
           + Nat.b2n (CONFIG_DESKTOP_HID_MPLAYER cfg))
          (TARGET_REPORT_MOUSE, report_enabled g TARGET_REPORT_MOUSE m)
      else []
  | None => []
  end.
Proof.
  rewrite pm_evt_handler_run. destruct (entered evt) as [m|]; [|reflexivity].
  cbn [trace]. rewrite broadcast_subscription_change_run. cbn [trace].
  cbn [with_report_mode report_enabled].
  destruct (mode_eqb m (report_mode g)) eqn:Hm; cbn [negb andb];
    [reflexivity|].
  assert (mode_eqb (report_mode g) m = false) as ->
    by (destruct m, (report_mode g); cbn in *; congruence).
  cbn [negb andb].
  destruct (eqb _ _); cbn [negb].
  - destruct (CONFIG_DESKTOP_HID_MOUSE cfg),
      (CONFIG_DESKTOP_HID_KEYBOARD cfg), (CONFIG_DESKTOP_HID_MPLAYER cfg);
      destruct m; reflexivity.
  - destruct (CONFIG_DESKTOP_HID_MOUSE cfg),
      (CONFIG_DESKTOP_HID_KEYBOARD cfg), (CONFIG_DESKTOP_HID_MPLAYER cfg);
      destruct m; reflexivity.
Qed.

(** A protocol-mode event never announces a report other than Mouse. *)
Lemma pm_evt_handler_announces_only_mouse cfg evt g tr en :
  In (tr, en) (subscription_events (trace (pm_evt_handler cfg evt g))) ->
  tr = TARGET_REPORT_MOUSE.
Proof.
  rewrite pm_evt_handler_subscription_events.
  destruct (entered evt) as [m|]; [|intros []].
  destruct (_ && _); [|intros []].
  intros Hin. apply list_elem_of_In, elem_of_replicate in Hin as [[= ->] _].
  reflexivity.
Qed.

(** X20.  With the mouse as the only configured report, a protocol-mode
    event announces the Mouse report exactly when its effective subscription
    changed, once, and with the new value. *)
Lemma pm_evt_handler_mouse_only_subscription_events ca evt g :
  let r := pm_evt_handler (Config true false false ca) evt g in
  subscription_events (trace r) =
  if eqb (EffectiveSubscription (final r) TARGET_REPORT_MOUSE)
         (EffectiveSubscription g TARGET_REPORT_MOUSE)
  then [] else [(TARGET_REPORT_MOUSE,
                 EffectiveSubscription (final r) TARGET_REPORT_MOUSE)].
Proof.
  cbv zeta. rewrite pm_evt_handler_subscription_events, pm_evt_handler_run.
  unfold EffectiveSubscription.
  destruct (entered evt) as [m|]; cbn [final with_report_mode report_mode
                                       report_enabled].
  - destruct (mode_eqb m (report_mode g)) eqn:Hm; cbn [negb andb].
    + apply mode_eqb_eq in Hm as ->. rewrite Bool.eqb_reflx. reflexivity.
    + destruct (report_enabled g TARGET_REPORT_MOUSE (report_mode g)),
        (report_enabled g TARGET_REPORT_MOUSE m); reflexivity.
  - rewrite Bool.eqb_reflx. reflexivity.
Qed.

(** A toggle announces the report it is for exactly when that report's
    effective subscription changed, and with the new value. *)
Lemma notif_handler_subscription_events cfg enabled tr mode g :
  let r := notif_handler cfg (toggle enabled) tr mode g in
  subscription_events (trace r) =
  if eqb (EffectiveSubscription (final r) tr) (EffectiveSubscription g tr)
  then [] else [(tr, EffectiveSubscription (final r) tr)].
Proof.
  cbv zeta. rewrite notif_handler_run. cbn [trace final].
  unfold EffectiveSubscription. cbn [with_report_enabled report_mode report_enabled].
  destruct (mode_eqb (report_mode g) mode) eqn:Hm; cbn [andb].
  - apply mode_eqb_eq in Hm. rewrite Hm, report_enabled_insert_eq.
    destruct (report_enabled g tr mode), enabled; reflexivity.
  - rewrite report_enabled_insert_ne.
    + rewrite Bool.eqb_reflx. reflexivity.
    + intros [= E]. rewrite E, mode_eqb_refl in Hm. discriminate.
Qed.

(** ** Protocol-mode events *)

(** C1 (the code departs from it).  On a device built with the mouse and the
    keyboard reports, the client enables boot-mouse notifications while the
    report protocol is active and then enters the boot protocol: the Mouse row
    differs between the two modes, and [pm_evt_handler] submits the Mouse
    subscription change twice, once per configured report, where exactly one
    notification is specified; switching back does the same with the
    disabled flag. *)
Theorem pm_evt_handler_mouse_announced_per_configured_report :
  let g0 :=
    after mouse_keyboard_cfg
      [notification_event boot_mouse_notif_handler_cb
         HIDS_CCCD_EVT_NOTIF_ENABLED] init_globals in
  let r := pm_evt_handler mouse_keyboard_cfg HIDS_PM_EVT_BOOT_MODE_ENTERED g0 in
  let r' :=
    pm_evt_handler mouse_keyboard_cfg HIDS_PM_EVT_REPORT_MODE_ENTERED
      (final r) in
  report_mode g0 = REPORT_MODE_PROTOCOL
  /\ report_enabled g0 TARGET_REPORT_MOUSE REPORT_MODE_PROTOCOL = false
  /\ report_enabled g0 TARGET_REPORT_MOUSE REPORT_MODE_BOOT = true
  /\ report_mode (final r) = REPORT_MODE_BOOT
  /\ subscription_events (trace r) =
     [(TARGET_REPORT_MOUSE, true); (TARGET_REPORT_MOUSE, true)]
  /\ report_mode (final r') = REPORT_MODE_PROTOCOL
  /\ subscription_events (trace r') =
     [(TARGET_REPORT_MOUSE, false); (TARGET_REPORT_MOUSE, false)].
Proof. vm_compute. repeat split. Qed.

(** C2 (the code departs from it).  On a keyboard-only device, the client
    enables boot-keyboard notifications and then enters the boot protocol:
    the effective subscription of Keyboard goes from disabled to enabled at
    the protocol-mode event, and processing that event submits no
    subscription change at all. *)
Theorem pm_evt_handler_keyboard_change_unannounced :
  let g0 :=
    after keyboard_cfg
      [notification_event boot_keyboard_notif_handler_cb
         HIDS_CCCD_EVT_NOTIF_ENABLED] init_globals in
  let r := dispatch keyboard_cfg
             (protocol_mode_event HIDS_PM_EVT_BOOT_MODE_ENTERED) g0 in
  registered keyboard_cfg boot_keyboard_notif_handler_cb = true
  /\ value r = Some tt
  /\ EffectiveSubscription g0 TARGET_REPORT_KEYBOARD = false
  /\ EffectiveSubscription (final r) TARGET_REPORT_KEYBOARD = true
  /\ subscription_events (trace r) = [].
Proof. vm_compute. repeat split. Qed.

(** C8, as amended.  A protocol-mode event after which the protocol mode is
    what it was before leaves the globals unchanged and submits nothing.  The
    only output is the log line of a repeated, well-formed event; an event
    that is neither of the two named ones produces no output at all: it is
    ignored without being logged. *)
Theorem pm_evt_handler_same_mode cfg evt g :
  report_mode (final (pm_evt_handler cfg evt g)) = report_mode g ->
  let r := pm_evt_handler cfg evt g in
  value r = Some tt
  /\ final r = g
  /\ subscription_events (trace r) = []
  /\ trace r = match entered evt with
               | Some m => [mode_log m]
               | None => []
               end.
Proof.
  cbv zeta. rewrite pm_evt_handler_run.
  destruct (entered evt) as [m|]; cbn [final value trace].
  - cbn [with_report_mode report_mode]. intros ->.
    rewrite mode_eqb_refl, with_report_mode_same. cbn [negb].
    repeat split.
  - intros _. repeat split.
Qed.

Lemma pm_evt_handler_same_mode_witness :
  final (pm_evt_handler mouse_keyboard_cfg (HIDS_PM_EVT_other 2) init_globals)
  = init_globals
  /\ trace (pm_evt_handler mouse_keyboard_cfg (HIDS_PM_EVT_other 2)
              init_globals) = [].
Proof.
  destruct (pm_evt_handler_same_mode mouse_keyboard_cfg (HIDS_PM_EVT_other 2)
              init_globals) as (_ & Hf & _ & Ht).
  - reflexivity.
  - split; [exact Hf | exact Ht].
Defined.

(** C8, as stated, fails on its last clause: for the malformed event 2 on a
    freshly started module the mode, the matrix and the bus are untouched,
    yet no log line was written. *)
Lemma pm_evt_handler_malformed_not_logged :
  ~ (let r := pm_evt_handler mouse_keyboard_cfg (HIDS_PM_EVT_other 2)
                init_globals in
     report_mode (final r) = report_mode init_globals ->
     final r = init_globals
     /\ subscription_events (trace r) = []
     /\ (entered (HIDS_PM_EVT_other 2) = None -> log_lines (trace r) <> [])).
Proof.
  intros H. destruct H as (_ & _ & Hlog); [reflexivity|].
  apply Hlog; reflexivity.
Qed.

(** ** Notification toggles *)

(** C7.  A toggle for the mode that is not active stores the flag in the
    matrix, leaves every other entry and the protocol mode alone, and emits
    nothing; once a protocol-mode event makes that mode the active one, the
    stored flag is the report's effective subscription. *)
Theorem notif_handler_inactive_mode cfg g tr mode enabled :
  mode <> report_mode g ->
  let r := notif_handler cfg (toggle enabled) tr mode g in
  value r = Some tt
  /\ trace r = []
  /\ report_mode (final r) = report_mode g
  /\ report_enabled (final r) tr mode = enabled
  /\ (forall tr' mode', (tr', mode') <> (tr, mode) ->
        report_enabled (final r) tr' mode' = report_enabled g tr' mode')
  /\ (forall evt, entered evt = Some mode ->
        let r' := pm_evt_handler cfg evt (final r) in
        report_mode (final r') = mode
        /\ EffectiveSubscription (final r') tr = enabled).
Proof.
  intros Hmode. cbv zeta. rewrite notif_handler_run.
  cbn [value trace final with_report_enabled report_mode report_enabled].
  rewrite (mode_eqb_neq (report_mode g) mode) by congruence.
  repeat split.
  - apply report_enabled_insert_eq.
  - intros tr' mode' Hne. apply report_enabled_insert_ne, Hne.
  - rewrite pm_evt_handler_run, H. reflexivity.
  - rewrite pm_evt_handler_run, H. unfold EffectiveSubscription.
    cbn [final with_report_mode report_mode report_enabled].
    apply report_enabled_insert_eq.
Qed.

Lemma notif_handler_inactive_mode_witness :
  trace (notif_handler keyboard_cfg (toggle true) TARGET_REPORT_KEYBOARD
           REPORT_MODE_BOOT init_globals) = []
  /\ report_enabled
       (final (notif_handler keyboard_cfg (toggle true) TARGET_REPORT_KEYBOARD
                 REPORT_MODE_BOOT init_globals))
       TARGET_REPORT_KEYBOARD REPORT_MODE_BOOT = true.
Proof.
  destruct (notif_handler_inactive_mode keyboard_cfg init_globals
              TARGET_REPORT_KEYBOARD REPORT_MODE_BOOT true)
    as (_ & Ht & _ & Hs & _).
  - cbn. discriminate.
  - split; [exact Ht | exact Hs].
Defined.

(** ** Integer conversions, saturation and bit fields *)

Lemma forall_range_spec n : forall lo p,
  forall_range n lo p = true ->
  forall z, lo <= z < lo + Z.of_nat n -> p z = true.
Proof.
  induction n as [|n IH]; intros lo p Hall z Hz; [lia|].
  cbn [forall_range] in Hall. apply andb_prop in Hall as [Hlo Hrest].
  destruct (Z.eq_dec z lo) as [->|Hne]; [exact Hlo|].
  apply (IH (lo + 1) p Hrest). lia.
Qed.

Lemma max_min_clamp lo hi v : lo <= hi -> max (min v hi) lo = clamp lo hi v.
Proof.
  intros Hle. unfold max, min, clamp.
  destruct (Z.ltb_spec v hi); destruct (Z.gtb_spec v lo);
    try destruct (Z.gtb_spec hi lo); lia.
Qed.

Lemma clamp_range lo hi v : lo <= hi -> lo <= clamp lo hi v <= hi.
Proof. unfold clamp. lia. Qed.

Lemma s8_id v : -128 <= v <= 127 -> s8 v = v.
Proof. intros H. unfold s8. rewrite Z.mod_small; lia. Qed.

Lemma s16_id v : -32768 <= v <= 32767 -> s16 v = v.
Proof. intros H. unfold s16. rewrite Z.mod_small; lia. Qed.

Lemma land_15_range a : 0 <= Z.land a 15 < 16.
Proof.
  change 15 with (Z.ones 4). rewrite Z.land_ones by lia.
  apply Z.mod_pos_bound. lia.
Qed.

Lemma u8_range v : 0 <= u8 v < 256.
Proof. apply Z.mod_pos_bound. lia. Qed.

Lemma clamp_id lo hi v : lo <= v <= hi -> clamp lo hi v = v.
Proof. unfold clamp. lia. Qed.

Lemma land_255_range a : 0 <= Z.land a 255 < 256.
Proof.
  change 255 with (Z.ones 8). rewrite Z.land_ones by lia.
  apply Z.mod_pos_bound. lia.
Qed.

Create HintDb hid_ranges.
#[local] Hint Resolve land_15_range land_255_range u8_range : hid_ranges.

(** A byte made of a byte shifted up by four and a nibble keeps the low
    nibble of the former on top of the latter. *)
Lemma u8_pack_nibbles a n :
  0 <= a < 256 -> 0 <= n < 16 ->
  u8 (Z.lor (Z.shiftl a 4) n) = Z.lor (Z.shiftl (Z.land a 15) 4) n.
Proof.
  intros Ha Hn. apply Z.eqb_eq.
  assert (forall_range 16 0 (fun n =>
            u8 (Z.lor (Z.shiftl a 4) n)
            =? Z.lor (Z.shiftl (Z.land a 15) 4) n) = true) as Hall.
  { revert a Ha. intros a Ha.
    apply (forall_range_spec 256 0 (fun a =>
             forall_range 16 0 (fun n =>
               u8 (Z.lor (Z.shiftl a 4) n)
               =? Z.lor (Z.shiftl (Z.land a 15) 4) n)));
      [vm_compute; reflexivity | lia]. }
  apply (forall_range_spec 16 0 _ Hall). lia.
Qed.

Lemma nibbles_low hi_n lo_n :
  0 <= hi_n < 16 -> 0 <= lo_n < 16 ->
  Z.land (Z.lor (Z.shiftl hi_n 4) lo_n) 15 = lo_n
  /\ Z.shiftr (Z.lor (Z.shiftl hi_n 4) lo_n) 4 = hi_n
  /\ 0 <= Z.lor (Z.shiftl hi_n 4) lo_n < 256.
Proof.
  intros Hh Hl.
  assert (forall_range 16 0 (nibbles_ok hi_n) = true) as Hall.
  { apply (forall_range_spec 16 0
             (fun h => forall_range 16 0 (nibbles_ok h)));
      [vm_compute; reflexivity | lia]. }
  pose proof (forall_range_spec 16 0 _ Hall lo_n ltac:(lia)) as H.
  unfold nibbles_ok in H. cbv zeta in H.
  repeat (apply andb_prop in H as [H ?]).
  repeat split; try (apply Z.eqb_eq; assumption); lia.
Qed.

Lemma field12_facts v :
  -2047 <= v <= 2047 ->
  u8 (u16 v) = Z.land v 0xff
  /\ Z.land (u8 (u16 v)) 15 = Z.land v 0x0f
  /\ Z.land (u8 (Z.shiftr (u16 v) 8)) 0x0f = Z.land (Z.shiftr v 8) 0x0f
  /\ u8 (Z.lor (Z.shiftl (u8 (Z.shiftr (u16 v) 8)) 4)
               (Z.shiftr (u8 (u16 v)) 4))
     = Z.land (Z.shiftr v 4) 0xff
  /\ sign_extend12
       (Z.lor (Z.land v 0xff) (Z.shiftl (Z.land (Z.shiftr v 8) 0x0f) 8)) = v
  /\ sign_extend12
       (Z.lor (Z.land v 0x0f) (Z.shiftl (Z.land (Z.shiftr v 4) 0xff) 4)) = v.
Proof.
  intros Hv.
  assert (field12_ok v = true) as H
    by (apply (forall_range_spec 4095 (-2047) field12_ok);
        [vm_compute; reflexivity | lia]).
  unfold field12_ok in H.
  repeat (apply andb_prop in H as [H ?]).
  repeat split; apply Z.eqb_eq; assumption.
Qed.

Lemma wheel_facts w :
  -127 <= w <= 127 ->
  u8 (s16 w) = Z.land w 0xff /\ s8 (Z.land w 0xff) = w
  /\ 0 <= Z.land w 0xff < 256.
Proof.
  intros Hw.
  assert (wheel_ok w = true) as H
    by (apply (forall_range_spec 255 (-127) wheel_ok);
        [vm_compute; reflexivity | lia]).
  unfold wheel_ok in H.
  repeat (apply andb_prop in H as [H ?]).
  repeat split; try (apply Z.eqb_eq; assumption); lia.
Qed.

(** ** The mouse encoder *)

Lemma send_mouse_report_boot_run stack ev g :
  report_mode g = REPORT_MODE_BOOT ->
  send_mouse_report stack ev g =
  Run (Some tt) g
    [hids_boot_mouse_inp_rep_send (button_bm ev)
       (clamp (-128) 127 (dx ev)) (clamp (-128) 127 (dy ev))
       mouse_report_sent_cb].
Proof.
  intros Hm. cbv [send_mouse_report mbind M_bind get emit]. cbn [value final trace].
  rewrite Hm. cbn [mode_eqb app].
  unfold SCHAR_MAX, SCHAR_MIN.
  rewrite !max_min_clamp by lia.
  rewrite !s8_id by (apply clamp_range; lia). reflexivity.
Qed.

Lemma send_mouse_report_protocol_run stack ev g :
  report_mode g = REPORT_MODE_PROTOCOL ->
  let w := clamp (-127) 127 (wheel ev) in
  let x := clamp (-2047) 2047 (dx ev) in
  let y := clamp (-2047) 2047 (dy ev) in
  send_mouse_report stack ev g =
  Run (Some tt) g
    [hids_inp_rep_send (report_index g REPORT_ID_MOUSE)
       [button_bm ev;
        Z.land w 0xff;
        Z.land x 0xff;
        Z.lor (Z.shiftl (Z.land y 0x0f) 4) (Z.land (Z.shiftr x 8) 0x0f);
        Z.land (Z.shiftr y 4) 0xff]
       5 mouse_report_sent_cb].
Proof.
  intros Hm w x y. cbv [send_mouse_report mbind M_bind get emit].
  cbn [value final trace]. rewrite Hm. cbn [mode_eqb app].
  rewrite !max_min_clamp by lia. fold w x y.
  assert (-127 <= w <= 127) as Hw by (apply clamp_range; lia).
  assert (-2047 <= x <= 2047) as Hx by (apply clamp_range; lia).
  assert (-2047 <= y <= 2047) as Hy by (apply clamp_range; lia).
  rewrite (s16_id x), (s16_id y) by lia.
  destruct (wheel_facts w Hw) as (-> & _ & _).
  cbv [alloca sys_put_le16 rd REPORT_SIZE_MOUSE].
  change (Z.to_nat 2) with 2%nat. change (Z.to_nat 5) with 5%nat.
  cbn -[u8 u16 Z.lor Z.land Z.shiftl Z.shiftr].
  destruct (field12_facts x Hx) as (Hx0 & _ & Hx1 & _).
  destruct (field12_facts y Hy) as (_ & Hy0 & _ & Hy1 & _).
  rewrite Hy1, Hx0.
  rewrite u8_pack_nibbles by auto with hid_ranges.
  rewrite Hy0, Hx1. reflexivity.
Qed.

(** C3.  In report-protocol mode the mouse encoder hands the indexed send
    path a 5-byte buffer, sent with length 5: the button bitmap as it came;
    the wheel saturated to [-127, 127], as a two's-complement byte; the low
    8 bits of x; the low nibble of y above bits 8-11 of x; bits 4-11 of y;
    x and y being the deltas saturated to [-2047, 2047]. *)
Theorem send_mouse_report_protocol_layout stack ev g :
  report_mode g = REPORT_MODE_PROTOCOL ->
  let w := clamp (-127) 127 (wheel ev) in
  let x := clamp (-2047) 2047 (dx ev) in
  let y := clamp (-2047) 2047 (dy ev) in
  exists byte0 byte1 byte2 byte3 byte4,
    send_mouse_report stack ev g =
    Run (Some tt) g
      [hids_inp_rep_send (report_index g REPORT_ID_MOUSE)
         [byte0; byte1; byte2; byte3; byte4] 5 mouse_report_sent_cb]
    /\ byte0 = button_bm ev
    /\ byte1 = Z.land w 0xff /\ s8 byte1 = w
    /\ byte2 = Z.land x 0xff
    /\ byte3 = Z.lor (Z.shiftl (Z.land y 0x0f) 4) (Z.land (Z.shiftr x 8) 0x0f)
    /\ byte4 = Z.land (Z.shiftr y 4) 0xff
    /\ (is_u8 (button_bm ev) = true ->
        Forall (fun b => 0 <= b < 256) [byte0; byte1; byte2; byte3; byte4]).
Proof.
  intros Hm w x y.
  eexists _, _, _, _, _. split; [apply send_mouse_report_protocol_run, Hm|].
  fold w x y.
  assert (-127 <= w <= 127) as Hw by (apply clamp_range; lia).
  destruct (wheel_facts w Hw) as (_ & Hs & _).
  repeat split; try assumption.
  intros Hb. unfold is_u8 in Hb. apply andb_prop in Hb as [H0 H1].
  repeat (constructor; cbv beta; [first [lia | solve [auto with hid_ranges]
                                         | apply nibbles_low;
                                           auto with hid_ranges]|]).
  constructor.
Qed.

Lemma send_mouse_report_protocol_layout_witness :
  exists byte1 byte2 byte3 byte4,
    send_mouse_report no_stack (MouseEvent 1 (-1) 1 (-1)) init_globals =
    Run (Some tt) init_globals
      [hids_inp_rep_send 0 [1; byte1; byte2; byte3; byte4] 5
         mouse_report_sent_cb]
    /\ s8 byte1 = -1.
Proof.
  destruct (send_mouse_report_protocol_layout no_stack
              (MouseEvent 1 (-1) 1 (-1)) init_globals eq_refl)
    as (b0 & b1 & b2 & b3 & b4 & Hrun & Hb0 & _ & Hs & _).
  exists b1, b2, b3, b4. split; [|exact Hs].
  rewrite Hrun, Hb0. reflexivity.
Defined.

(** C4, as amended.  In report-protocol mode, dx=3000, dy=-3000, wheel=200,
    buttons=0x05 is encoded as 05 7f ff 17 80: x saturates to 2047, y to
    -2047 and the wheel to 127; byte 0 is 0x05, and bytes 2-4 unpack to
    x=2047 and y=-2047. *)
Theorem send_mouse_report_protocol_saturated stack g :
  report_mode g = REPORT_MODE_PROTOCOL ->
  send_mouse_report stack (MouseEvent 0x05 200 3000 (-3000)) g =
  Run (Some tt) g
    [hids_inp_rep_send (report_index g REPORT_ID_MOUSE)
       [0x05; 0x7f; 0xff; 0x17; 0x80] 5 mouse_report_sent_cb]
  /\ clamp (-2047) 2047 3000 = 2047
  /\ clamp (-2047) 2047 (-3000) = -2047
  /\ clamp (-127) 127 200 = 127
  /\ s8 0x7f = 127
  /\ unpack_x 0xff 0x17 = 2047
  /\ unpack_y 0x17 0x80 = -2047.
Proof.
  intros Hm. split; [|repeat split].
  rewrite (send_mouse_report_protocol_run stack _ g Hm). reflexivity.
Qed.

Lemma send_mouse_report_protocol_saturated_witness :
  trace (send_mouse_report no_stack (MouseEvent 0x05 200 3000 (-3000))
           init_globals)
  = [hids_inp_rep_send 0 [0x05; 0x7f; 0xff; 0x17; 0x80] 5
       mouse_report_sent_cb].
Proof.
  destruct (send_mouse_report_protocol_saturated no_stack init_globals
              eq_refl) as [Hrun _].
  rewrite Hrun. reflexivity.
Defined.

(** C4, as stated, fails: for this event the wheel byte reads 127, not
    -127. *)
Lemma send_mouse_report_wheel_200_is_not_minus_127 :
  ~ (exists byte0 byte1 byte2 byte3 byte4,
       send_mouse_report no_stack (MouseEvent 0x05 200 3000 (-3000))
         init_globals =
       Run (Some tt) init_globals
         [hids_inp_rep_send 0 [byte0; byte1; byte2; byte3; byte4] 5
            mouse_report_sent_cb]
       /\ byte0 = 0x05
       /\ s8 byte1 = -127
       /\ unpack_x byte2 byte3 = 2047
       /\ unpack_y byte3 byte4 = -2047).
Proof.
  intros (b0 & b1 & b2 & b3 & b4 & Hrun & _ & Hw & _).
  vm_compute in Hrun. injection Hrun as <- <- <- <- <-.
  vm_compute in Hw. discriminate Hw.
Qed.

(** C5.  In boot-protocol mode the mouse encoder hands the boot send path
    the button bitmap as it came and the two deltas saturated to
    [-128, 127]; the wheel does not enter the result.  In particular
    dx=3000, dy=-3000, buttons=0x05 gives buttons=0x05, x=127, y=-128. *)
Theorem send_mouse_report_boot_saturates stack ev g :
  report_mode g = REPORT_MODE_BOOT ->
  let x := clamp (-128) 127 (dx ev) in
  let y := clamp (-128) 127 (dy ev) in
  send_mouse_report stack ev g =
  Run (Some tt) g
    [hids_boot_mouse_inp_rep_send (button_bm ev) x y mouse_report_sent_cb]
  /\ -128 <= x <= 127 /\ -128 <= y <= 127
  /\ (dx ev < -128 -> x = -128) /\ (127 < dx ev -> x = 127)
  /\ (-128 <= dx ev <= 127 -> x = dx ev)
  /\ (dy ev < -128 -> y = -128) /\ (127 < dy ev -> y = 127)
  /\ (-128 <= dy ev <= 127 -> y = dy ev)
  /\ (forall wheel',
        send_mouse_report stack
          (MouseEvent (button_bm ev) wheel' (dx ev) (dy ev)) g
        = send_mouse_report stack ev g)
  /\ (forall wheel',
        send_mouse_report stack (MouseEvent 0x05 wheel' 3000 (-3000)) g =
        Run (Some tt) g
          [hids_boot_mouse_inp_rep_send 0x05 127 (-128)
             mouse_report_sent_cb]).
Proof.
  intros Hm x y.
  split; [apply send_mouse_report_boot_run, Hm|].
  unfold x, y, clamp.
  repeat split; try lia.
  - intros wheel'. rewrite !send_mouse_report_boot_run by exact Hm.
    reflexivity.
  - intros wheel'. rewrite send_mouse_report_boot_run by exact Hm.
    reflexivity.
Qed.

Lemma send_mouse_report_boot_saturates_witness :
  send_mouse_report no_stack (MouseEvent 0x05 200 3000 (-3000))
    (with_report_mode init_globals REPORT_MODE_BOOT)
  = Run (Some tt) (with_report_mode init_globals REPORT_MODE_BOOT)
      [hids_boot_mouse_inp_rep_send 0x05 127 (-128) mouse_report_sent_cb].
Proof.
  destruct (send_mouse_report_boot_saturates no_stack
              (MouseEvent 0x05 200 3000 (-3000))
              (with_report_mode init_globals REPORT_MODE_BOOT) eq_refl)
    as [Hrun _].
  rewrite Hrun. reflexivity.
Defined.

(** C10.  For deltas already within [-2047, 2047], unpacking bytes 2-4 of
    the report-mode mouse report (x from byte 2 and the low nibble of byte 3,
    y from the high nibble of byte 3 and byte 4, each sign-extended from 12
    bits) gives back dx and dy, whatever the wheel and the buttons. *)
Theorem send_mouse_report_unpack_roundtrip stack ev g :
  report_mode g = REPORT_MODE_PROTOCOL ->
  -2047 <= dx ev <= 2047 ->
  -2047 <= dy ev <= 2047 ->
  exists byte0 byte1 byte2 byte3 byte4,
    send_mouse_report stack ev g =
    Run (Some tt) g
      [hids_inp_rep_send (report_index g REPORT_ID_MOUSE)
         [byte0; byte1; byte2; byte3; byte4] 5 mouse_report_sent_cb]
    /\ unpack_x byte2 byte3 = dx ev
    /\ unpack_y byte3 byte4 = dy ev.
Proof.
  intros Hm Hx Hy.
  eexists _, _, _, _, _. split; [apply send_mouse_report_protocol_run, Hm|].
  rewrite !(clamp_id (-2047) 2047) by assumption.
  unfold unpack_x, unpack_y.
  destruct (nibbles_low (Z.land (dy ev) 15) (Z.land (Z.shiftr (dx ev) 8) 15)
              (land_15_range _) (land_15_range _)) as (-> & -> & _).
  destruct (field12_facts (dx ev) Hx) as (_ & _ & _ & _ & Hux & _).
  destruct (field12_facts (dy ev) Hy) as (_ & _ & _ & _ & _ & Huy).
  split; assumption.
Qed.

Lemma send_mouse_report_unpack_roundtrip_witness :
  exists byte0 byte1 byte2 byte3 byte4,
    trace (send_mouse_report no_stack (MouseEvent 0x03 7 (-1234) 2047)
             init_globals)
    = [hids_inp_rep_send 0 [byte0; byte1; byte2; byte3; byte4] 5
         mouse_report_sent_cb]
    /\ unpack_x byte2 byte3 = -1234
    /\ unpack_y byte3 byte4 = 2047.
Proof.
  destruct (send_mouse_report_unpack_roundtrip no_stack
              (MouseEvent 0x03 7 (-1234) 2047) init_globals eq_refl)
    as (b0 & b1 & b2 & b3 & b4 & Hrun & Hx & Hy).
  - cbn. lia.
  - cbn. lia.
  - exists b0, b1, b2, b3, b4. rewrite Hrun. repeat split; assumption.
Defined.

(** ** The keyboard encoder *)

(** C6.  The keyboard report is 9 bytes: the modifier bitmap, a zero, the
    six key codes in input order, a zero.  In report-protocol mode it goes
    to the indexed send path with length 9; in boot-protocol mode the same
    buffer goes to the boot send path with length 8, which leaves the
    trailing byte out.  In particular modifiers=0x02, keys=[4,5,0,0,0,0]
    gives 02 00 04 05 00 00 00 00 00. *)
Theorem send_keyboard_layout stack ev g :
  length (keys ev) = 6%nat ->
  let report := [modifier_bm ev; 0] ++ keys ev ++ [0] in
  length report = 9%nat
  /\ (report_mode g = REPORT_MODE_PROTOCOL ->
      send_keyboard stack ev g =
      Run (Some tt) g
        [hids_inp_rep_send (report_index g REPORT_ID_KEYBOARD) report 9
           keyboard_report_sent_cb])
  /\ (report_mode g = REPORT_MODE_BOOT ->
      send_keyboard stack ev g =
      Run (Some tt) g
        [hids_boot_kb_inp_rep_send report 8 keyboard_report_sent_cb])
  /\ take 8 report = [modifier_bm ev; 0] ++ keys ev
  /\ trace (send_keyboard stack (KeyboardEvent 0x02 [4; 5; 0; 0; 0; 0])
              (with_report_mode g REPORT_MODE_PROTOCOL))
     = [hids_inp_rep_send (report_index g REPORT_ID_KEYBOARD)
          [0x02; 0x00; 4; 5; 0; 0; 0; 0; 0x00] 9 keyboard_report_sent_cb].
Proof.
  destruct ev as [m ks]. cbn [keys modifier_bm]. intros Hlen.
  destruct ks as [|k0 [|k1 [|k2 [|k3 [|k4 [|k5 [|k6 ks]]]]]]];
    try discriminate Hlen.
  cbv zeta. repeat split.
  - intros Hm. cbv [send_keyboard mbind M_bind get emit]. cbn [value final trace].
    rewrite Hm. reflexivity.
  - intros Hm. cbv [send_keyboard mbind M_bind get emit]. cbn [value final trace].
    rewrite Hm. reflexivity.
Qed.

Lemma send_keyboard_layout_witness :
  send_keyboard no_stack (KeyboardEvent 0x02 [4; 5; 0; 0; 0; 0])
    (with_report_mode init_globals REPORT_MODE_BOOT)
  = Run (Some tt) (with_report_mode init_globals REPORT_MODE_BOOT)
      [hids_boot_kb_inp_rep_send [0x02; 0x00; 4; 5; 0; 0; 0; 0; 0x00] 8
         keyboard_report_sent_cb].
Proof.
  destruct (send_keyboard_layout no_stack
              (KeyboardEvent 0x02 [4; 5; 0; 0; 0; 0])
              (with_report_mode init_globals REPORT_MODE_BOOT) eq_refl)
    as (_ & _ & Hboot & _).
  exact (Hboot eq_refl).
Defined.

(** * Further properties *)

(** ** The reconciler on arbitrary events *)

Lemma notif_handler_any_run cfg evt tr mode g :
  notif_handler cfg evt tr mode g =
  if CONFIG_ASSERT cfg && negb (valid_notif_evt evt) then Run None g []
  else
    let enabled := notif_evt_eqb evt HIDS_CCCD_EVT_NOTIF_ENABLED in
    Run (Some tt) (with_report_enabled g tr mode enabled)
      (if mode_eqb (report_mode g) mode
          && negb (eqb (report_enabled g tr mode) enabled)
       then [subscription_log enabled; EVENT_SUBMIT_subscription tr enabled]
       else []).
Proof.
  unfold valid_notif_evt. unfold_handlers.
  destruct (CONFIG_ASSERT cfg); cbn [andb];
    [destruct (_ || _); cbn [negb value final trace]; [|reflexivity]|].
  all: cbn; destruct (mode_eqb (report_mode g) mode && _); cbn;
    try reflexivity.
  all: rewrite mode_eqb_refl; cbn; rewrite report_enabled_insert_eq;
    reflexivity.
Qed.

Lemma dispatch_notification_run cfg cb evt g :
  dispatch cfg (notification_event cb evt) g =
  let r := notif_handler cfg evt (fst (target_of cb)) (snd (target_of cb)) g in
  Run (value r) (final r) (SYS_LOG_INF EmptyString :: trace r).
Proof.
  destruct cb; cbn [dispatch target_of fst snd];
    cbv [mouse_notif_handler boot_mouse_notif_handler keyboard_notif_handler
         boot_keyboard_notif_handler mplayer_notif_handler
         mbind M_bind emit]; cbn [value final trace app]; reflexivity.
Qed.

Lemma run_events_cons cfg e es g :
  run_events cfg (e :: es) g =
  let r := dispatch cfg e g in
  match value r with
  | None => Run None (final r) (trace r)
  | Some _ =>
      let r' := run_events cfg es (final r) in
      Run (value r') (final r') (trace r ++ trace r')
  end.
Proof. reflexivity. Qed.

Lemma listener_view_app l1 l2 v :
  listener_view (l1 ++ l2) v = listener_view l2 (listener_view l1 v).
Proof. apply fold_left_app. Qed.

Lemma listener_view_replicate n tr b v :
  listener_view (replicate n (tr, b)) v tr = match n with O => v tr | _ => b end.
Proof.
  revert v. induction n as [|n IH]; intros v; [reflexivity|].
  cbn [replicate]. unfold listener_view in *. cbn [fold_left fst snd].
  rewrite IH. destruct n; [|reflexivity]. apply fn_lookup_insert.
Qed.

(** X1.  A notification toggle, in either mode and whatever the matrix
    holds, never fails; it submits nothing when the report's effective
    subscription is what it was, exactly one change carrying the report and
    its new effective flag when it is not; and it leaves the effective
    subscription of every other report alone. *)
Theorem notif_handler_announces_effective_change cfg enabled tr mode g :
  let r := notif_handler cfg (toggle enabled) tr mode g in
  value r = Some tt
  /\ (EffectiveSubscription (final r) tr = EffectiveSubscription g tr ->
      subscription_events (trace r) = [])
  /\ (EffectiveSubscription (final r) tr <> EffectiveSubscription g tr ->
      subscription_events (trace r)
      = [(tr, EffectiveSubscription (final r) tr)])
  /\ (forall tr', tr' <> tr ->
      EffectiveSubscription (final r) tr' = EffectiveSubscription g tr').
Proof.
  cbv zeta. rewrite notif_handler_subscription_events.
  rewrite notif_handler_run. cbn [value final].
  repeat split.
  - intros ->. rewrite Bool.eqb_reflx. reflexivity.
  - intros Hne. destruct (eqb _ _) eqn:He; [|reflexivity].
    apply Bool.eqb_prop in He. contradiction.
  - intros tr' Hne. unfold EffectiveSubscription.
    cbn [with_report_enabled report_mode report_enabled].
    apply report_enabled_insert_ne. congruence.
Qed.

(** X2.  Repeating a toggle is silent: the second of two identical toggles
    emits nothing at all and changes neither the mode nor any matrix
    entry. *)
Theorem notif_handler_repeated_toggle cfg enabled tr mode g :
  let r1 := notif_handler cfg (toggle enabled) tr mode g in
  let r2 := notif_handler cfg (toggle enabled) tr mode (final r1) in
  value r2 = Some tt
  /\ trace r2 = []
  /\ report_mode (final r2) = report_mode (final r1)
  /\ (forall tr' mode',
        report_enabled (final r2) tr' mode'
        = report_enabled (final r1) tr' mode').
Proof.
  cbv zeta. rewrite !notif_handler_run.
  cbn [value final trace with_report_enabled report_mode report_enabled].
  rewrite report_enabled_insert_eq, Bool.eqb_reflx, andb_false_r.
  repeat split. intros tr' mode'.
  destruct (decide ((tr', mode') = (tr, mode))) as [[= -> ->]|Hne].
  - rewrite !report_enabled_insert_eq. reflexivity.
  - rewrite (report_enabled_insert_ne _ tr mode enabled tr' mode' Hne).
    reflexivity.
Qed.

(** X3.  A CCCD event that is neither "enabled" nor "disabled": with
    assertions compiled in the handler stops before it has written anything;
    with assertions compiled out it is processed exactly like
    "disabled". *)
Theorem notif_handler_invalid_event cfg raw tr mode g :
  let r := notif_handler cfg (HIDS_CCCD_EVT_other raw) tr mode g in
  if CONFIG_ASSERT cfg
  then value r = None /\ final r = g /\ trace r = []
  else r = notif_handler cfg HIDS_CCCD_EVT_NOTIF_DISABLED tr mode g.
Proof.
  cbv zeta. rewrite !notif_handler_any_run.
  destruct (CONFIG_ASSERT cfg); cbn; [repeat split | reflexivity].
Qed.

(** X4.  Entering a protocol mode and coming back restores the globals, and
    the way back submits the same subscription changes as the way out with
    the flags inverted. *)
Theorem pm_evt_handler_there_and_back cfg evt_out evt_back g m :
  entered evt_out = Some m ->
  entered evt_back = Some (report_mode g) ->
  let r1 := pm_evt_handler cfg evt_out g in
  let r2 := pm_evt_handler cfg evt_back (final r1) in
  value r2 = Some tt
  /\ final r2 = g
  /\ subscription_events (trace r2)
     = map (fun e => (fst e, negb (snd e))) (subscription_events (trace r1)).
Proof.
  intros Hout Hback. cbv zeta.
  rewrite !pm_evt_handler_subscription_events, !pm_evt_handler_run.
  rewrite Hout, Hback. cbn [value final trace with_report_mode report_mode
                            report_enabled].
  split; [reflexivity|]. split; [destruct g; reflexivity|].
  destruct g as [ri rm re ini]. cbn [report_mode report_enabled].
  destruct m, rm; cbn [mode_eqb negb andb map]; try reflexivity.
  all: destruct (re TARGET_REPORT_MOUSE REPORT_MODE_PROTOCOL),
         (re TARGET_REPORT_MOUSE REPORT_MODE_BOOT);
    cbn [eqb negb map]; try reflexivity.
  all: generalize (Nat.b2n (CONFIG_DESKTOP_HID_MOUSE cfg)
                   + Nat.b2n (CONFIG_DESKTOP_HID_KEYBOARD cfg)
                   + Nat.b2n (CONFIG_DESKTOP_HID_MPLAYER cfg))%nat;
    intros n; induction n as [|n IH]; cbn [replicate map fst snd negb];
    congruence.
Qed.

Lemma pm_evt_handler_there_and_back_witness :
  final (pm_evt_handler mouse_keyboard_cfg HIDS_PM_EVT_REPORT_MODE_ENTERED
           (final (pm_evt_handler mouse_keyboard_cfg
                     HIDS_PM_EVT_BOOT_MODE_ENTERED init_globals)))
  = init_globals.
Proof.
  destruct (pm_evt_handler_there_and_back mouse_keyboard_cfg
              HIDS_PM_EVT_BOOT_MODE_ENTERED HIDS_PM_EVT_REPORT_MODE_ENTERED
              init_globals REPORT_MODE_BOOT eq_refl eq_refl) as (_ & Hf & _).
  exact Hf.
Defined.

(** ** Sequences of transport events *)

Lemma dispatch_listener_view_mouse cfg e g v :
  (0 < configured_count cfg)%nat ->
  v TARGET_REPORT_MOUSE = EffectiveSubscription g TARGET_REPORT_MOUSE ->
  let r := dispatch cfg e g in
  listener_view (subscription_events (trace r)) v TARGET_REPORT_MOUSE
  = EffectiveSubscription (final r) TARGET_REPORT_MOUSE.
Proof.
  intros Hcfg Hv. cbv zeta. destruct e as [evt|cb evt].
  - cbn [dispatch]. rewrite pm_evt_handler_subscription_events.
    rewrite pm_evt_handler_run. unfold EffectiveSubscription in *.
    destruct (entered evt) as [m|]; cbn [final with_report_mode report_mode
                                         report_enabled]; [|exact Hv].
    destruct (mode_eqb m (report_mode g)) eqn:Hm; cbn [negb andb].
    + apply mode_eqb_eq in Hm as ->. exact Hv.
    + destruct (eqb _ _) eqn:He; cbn [negb].
      * apply Bool.eqb_prop in He. rewrite <- He. exact Hv.
      * fold (configured_count cfg). rewrite listener_view_replicate.
        destruct (configured_count cfg); [lia|reflexivity].
  - rewrite dispatch_notification_run. cbv zeta. cbn [trace final].
    rewrite notif_handler_any_run.
    destruct (CONFIG_ASSERT cfg && _); cbn [trace final]; [exact Hv|].
    destruct (target_of cb) as [tr mode]. cbn [fst snd].
    unfold EffectiveSubscription in *.
    cbn [with_report_enabled report_mode report_enabled].
    destruct (mode_eqb (report_mode g) mode) eqn:Hm; cbn [andb].
    + apply mode_eqb_eq in Hm as <-.
      destruct (decide (tr = TARGET_REPORT_MOUSE)) as [->|Htr].
      * rewrite report_enabled_insert_eq.
        destruct (negb _) eqn:Hc; cbn.
        -- apply fn_lookup_insert.
        -- rewrite Hv. apply negb_false_iff, Bool.eqb_prop in Hc. exact Hc.
      * rewrite report_enabled_insert_ne by congruence.
        destruct (negb _); cbn; [|exact Hv].
        unfold listener_view. cbn [fold_left fst snd].
        rewrite fn_lookup_insert_ne by exact Htr. exact Hv.
    + cbn. rewrite report_enabled_insert_ne; [exact Hv|].
      intros [= _ <-]. rewrite mode_eqb_refl in Hm. discriminate.
Qed.

(** X5.  The reconciliation invariant for Mouse along any sequence of
    transport events (protocol-mode events, well-formed or not, and CCCD
    events on any callback), on any build with at least one report
    configured: a listener that starts from Mouse's effective subscription
    and applies the submitted subscription changes in order ends up holding
    Mouse's effective subscription, whether the sequence ran to its end or
    stopped at an assertion. *)
Theorem run_events_listener_tracks_mouse cfg es g v :
  (0 < configured_count cfg)%nat ->
  v TARGET_REPORT_MOUSE = EffectiveSubscription g TARGET_REPORT_MOUSE ->
  let r := run_events cfg es g in
  listener_view (subscription_events (trace r)) v TARGET_REPORT_MOUSE
  = EffectiveSubscription (final r) TARGET_REPORT_MOUSE.
Proof.
  intros Hcfg. revert g v. induction es as [|e es IH]; intros g v Hv.
  - exact Hv.
  - cbv zeta. rewrite run_events_cons. cbv zeta.
    pose proof (dispatch_listener_view_mouse cfg e g v Hcfg Hv) as Hstep.
    cbv zeta in Hstep.
    destruct (value (dispatch cfg e g)); cbn [trace final]; [|exact Hstep].
    rewrite subscription_events_app, listener_view_app.
    apply IH, Hstep.
Qed.

Lemma run_events_listener_tracks_mouse_witness :
  listener_view
    (subscription_events
       (trace (run_events mouse_keyboard_cfg
                 [notification_event boot_mouse_notif_handler_cb
                    HIDS_CCCD_EVT_NOTIF_ENABLED;
                  protocol_mode_event HIDS_PM_EVT_BOOT_MODE_ENTERED]
                 init_globals)))
    (EffectiveSubscription init_globals) TARGET_REPORT_MOUSE
  = true.
Proof.
  rewrite (run_events_listener_tracks_mouse mouse_keyboard_cfg _ init_globals
             (EffectiveSubscription init_globals)).
  - reflexivity.
  - cbn. lia.
  - reflexivity.
Defined.

Lemma dispatch_keeps cfg e g :
  let r := dispatch cfg e g in
  report_index (final r) = report_index g
  /\ initialized (final r) = initialized g
  /\ (forall tr mode,
        (forall cb evt, e = notification_event cb evt ->
                        target_of cb <> (tr, mode)) ->
        report_enabled (final r) tr mode = report_enabled g tr mode).
Proof.
  cbv zeta. destruct e as [evt|cb evt].
  - cbn [dispatch]. rewrite pm_evt_handler_run.
    destruct (entered evt); cbn [final]; repeat split.
  - rewrite dispatch_notification_run. cbv zeta. cbn [final].
    rewrite notif_handler_any_run.
    destruct (CONFIG_ASSERT cfg && _); cbn [final]; [repeat split|].
    repeat split. intros tr mode Hcb.
    cbn [with_report_enabled report_enabled].
    apply report_enabled_insert_ne. intros Heq.
    apply (Hcb cb evt eq_refl).
    destruct (target_of cb); cbn [fst snd] in Heq; congruence.
Qed.

(** X6.  Along any sequence of transport events in which only registered
    callbacks are invoked, the matrix entries that no registered callback
    writes keep their value: both entries of a report that is not
    configured, and the boot entry of MediaPlayer, for which no boot
    callback exists.  The registry and the initialisation flag are not
    touched either. *)
Theorem run_events_keeps_unregistered_entries cfg es g tr mode :
  forallb (registered_event cfg) es = true ->
  report_configured cfg tr = false
  \/ (tr, mode) = (TARGET_REPORT_MPLAYER, REPORT_MODE_BOOT) ->
  let r := run_events cfg es g in
  report_enabled (final r) tr mode = report_enabled g tr mode
  /\ report_index (final r) = report_index g
  /\ initialized (final r) = initialized g.
Proof.
  intros Hreg Htr. revert g Hreg.
  induction es as [|e es IH]; intros g Hreg; [repeat split|].
  cbn [forallb] in Hreg. apply andb_prop in Hreg as [He Hes].
  cbv zeta. rewrite run_events_cons. cbv zeta.
  destruct (dispatch_keeps cfg e g) as (Hri & Hini & Hre).
  assert (report_enabled (final (dispatch cfg e g)) tr mode
          = report_enabled g tr mode) as Hstep.
  { apply Hre. intros cb evt ->. cbn [registered_event] in He.
    destruct Htr as [Hnc|[= -> ->]].
    - destruct cb, tr; cbn in *; congruence.
    - destruct cb; cbn; congruence. }
  destruct (value (dispatch cfg e g)); cbn [final].
  - destruct (IH (final (dispatch cfg e g)) Hes) as (H1 & H2 & H3).
    cbv zeta in H1. rewrite H1, H2, H3. repeat split; assumption.
  - repeat split; assumption.
Qed.

Lemma run_events_keeps_unregistered_entries_witness :
  report_enabled
    (final (run_events keyboard_cfg
              [notification_event boot_keyboard_notif_handler_cb
                 HIDS_CCCD_EVT_NOTIF_ENABLED;
               protocol_mode_event HIDS_PM_EVT_BOOT_MODE_ENTERED]
              init_globals))
    TARGET_REPORT_MOUSE REPORT_MODE_BOOT
  = false.
Proof.
  destruct (run_events_keeps_unregistered_entries keyboard_cfg
              [notification_event boot_keyboard_notif_handler_cb
                 HIDS_CCCD_EVT_NOTIF_ENABLED;
               protocol_mode_event HIDS_PM_EVT_BOOT_MODE_ENTERED]
              init_globals TARGET_REPORT_MOUSE REPORT_MODE_BOOT)
    as (H & _).
  - reflexivity.
  - left. reflexivity.
  - exact H.
Defined.

Lemma dispatch_report_mode cfg e g :
  let r := dispatch cfg e g in
  report_mode (final r) = last_entered [e] (report_mode g).
Proof.
  cbv zeta. destruct e as [evt|cb evt]; cbn [last_entered fold_left].
  - cbn [dispatch]. rewrite pm_evt_handler_run.
    destruct (entered evt); reflexivity.
  - rewrite dispatch_notification_run. cbv zeta. cbn [final].
    rewrite notif_handler_any_run.
    destruct (CONFIG_ASSERT cfg && _); reflexivity.
Qed.

(** X7.  After a sequence of transport events that ran to its end, the
    protocol mode is the one named by the last Boot or Report event of the
    sequence, or the initial mode when there is none: malformed
    protocol-mode events and CCCD events never move it. *)
Theorem run_events_report_mode cfg es g :
  value (run_events cfg es g) = Some tt ->
  report_mode (final (run_events cfg es g)) = last_entered es (report_mode g).
Proof.
  revert g. induction es as [|e es IH]; intros g Hv; [reflexivity|].
  rewrite run_events_cons in *. cbv zeta in *.
  pose proof (dispatch_report_mode cfg e g) as Hstep. cbv zeta in Hstep.
  destruct (value (dispatch cfg e g)); cbn [value final] in *;
    [|discriminate].
  rewrite IH by exact Hv. rewrite Hstep. reflexivity.
Qed.

Lemma run_events_report_mode_witness :
  report_mode
    (final (run_events mouse_keyboard_cfg
              [protocol_mode_event HIDS_PM_EVT_BOOT_MODE_ENTERED;
               protocol_mode_event (HIDS_PM_EVT_other 7);
               notification_event mouse_notif_handler_cb
                 HIDS_CCCD_EVT_NOTIF_ENABLED]
              init_globals))
  = REPORT_MODE_BOOT.
Proof.
  rewrite (run_events_report_mode mouse_keyboard_cfg _ init_globals).
  - reflexivity.
  - reflexivity.
Defined.

(** ** The encoders on arbitrary events *)

Lemma unpack_packed_fields x y :
  -2047 <= x <= 2047 -> -2047 <= y <= 2047 ->
  let byte3 := Z.lor (Z.shiftl (Z.land y 0x0f) 4)
                     (Z.land (Z.shiftr x 8) 0x0f) in
  unpack_x (Z.land x 0xff) byte3 = x
  /\ unpack_y byte3 (Z.land (Z.shiftr y 4) 0xff) = y.
Proof.
  intros Hx Hy. cbv zeta. unfold unpack_x, unpack_y.
  destruct (nibbles_low (Z.land y 15) (Z.land (Z.shiftr x 8) 15)
              (land_15_range _) (land_15_range _)) as (-> & -> & _).
  destruct (field12_facts x Hx) as (_ & _ & _ & _ & Hux & _).
  destruct (field12_facts y Hy) as (_ & _ & _ & _ & _ & Huy).
  split; assumption.
Qed.

Lemma send_keyboard_run stack ev g :
  length (keys ev) = 6%nat ->
  let report := [modifier_bm ev; 0] ++ keys ev ++ [0] in
  send_keyboard stack ev g =
  Run (Some tt) g
    [if mode_eqb (report_mode g) REPORT_MODE_BOOT
     then hids_boot_kb_inp_rep_send report 8 keyboard_report_sent_cb
     else hids_inp_rep_send (report_index g REPORT_ID_KEYBOARD) report 9
            keyboard_report_sent_cb].
Proof.
  destruct ev as [m ks]. cbn [keys modifier_bm]. intros Hlen.
  destruct ks as [|k0 [|k1 [|k2 [|k3 [|k4 [|k5 [|k6 ks]]]]]]];
    try discriminate Hlen.
  cbv zeta. cbv [send_keyboard mbind M_bind get emit].
  cbn [value final trace].
  destruct (mode_eqb (report_mode g) REPORT_MODE_BOOT); reflexivity.
Qed.

(** X8.  Whatever the deltas and the wheel of a mouse event, in
    report-protocol mode the bytes handed to the transport unpack to the
    saturated values: x and y to the deltas clamped to [-2047, 2047], the
    wheel byte, read as a signed byte, to the wheel clamped to [-127, 127].
    The 12-bit pattern of -2048 and the wheel byte of -128 never occur. *)
Theorem send_mouse_report_unpacks_to_saturated stack ev g :
  report_mode g = REPORT_MODE_PROTOCOL ->
  exists byte0 byte1 byte2 byte3 byte4,
    trace (send_mouse_report stack ev g) =
    [hids_inp_rep_send (report_index g REPORT_ID_MOUSE)
       [byte0; byte1; byte2; byte3; byte4] 5 mouse_report_sent_cb]
    /\ unpack_x byte2 byte3 = clamp (-2047) 2047 (dx ev)
    /\ unpack_y byte3 byte4 = clamp (-2047) 2047 (dy ev)
    /\ s8 byte1 = clamp (-127) 127 (wheel ev)
    /\ unpack_x byte2 byte3 <> -2048
    /\ unpack_y byte3 byte4 <> -2048
    /\ s8 byte1 <> -128.
Proof.
  intros Hm. eexists _, _, _, _, _.
  rewrite (send_mouse_report_protocol_run stack ev g Hm). cbn [trace].
  split; [reflexivity|].
  pose proof (clamp_range (-2047) 2047 (dx ev) ltac:(lia)) as Hx.
  pose proof (clamp_range (-2047) 2047 (dy ev) ltac:(lia)) as Hy.
  pose proof (clamp_range (-127) 127 (wheel ev) ltac:(lia)) as Hw.
  destruct (unpack_packed_fields _ _ Hx Hy) as [-> ->].
  destruct (wheel_facts _ Hw) as (_ & -> & _).
  repeat split; lia.
Qed.

Lemma send_mouse_report_unpacks_to_saturated_witness :
  exists byte0 byte1 byte2 byte3 byte4,
    trace (send_mouse_report no_stack (MouseEvent 0x01 (-300) 5000 (-7))
             init_globals) =
    [hids_inp_rep_send 0 [byte0; byte1; byte2; byte3; byte4] 5
       mouse_report_sent_cb]
    /\ unpack_x byte2 byte3 = 2047
    /\ unpack_y byte3 byte4 = -7
    /\ s8 byte1 = -127.
Proof.
  destruct (send_mouse_report_unpacks_to_saturated no_stack
              (MouseEvent 0x01 (-300) 5000 (-7)) init_globals eq_refl)
    as (b0 & b1 & b2 & b3 & b4 & Ht & Hx & Hy & Hw & _).
  exists b0, b1, b2, b3, b4. repeat split; assumption.
Defined.

(** X9.  On events that need no saturation the report-mode mouse encoding
    loses nothing: two events with deltas in [-2047, 2047] and wheel in
    [-127, 127] that produce the same transport call are the same event. *)
Theorem send_mouse_report_injective stack ev1 ev2 g :
  report_mode g = REPORT_MODE_PROTOCOL ->
  -2047 <= dx ev1 <= 2047 -> -2047 <= dy ev1 <= 2047 ->
  -127 <= wheel ev1 <= 127 ->
  -2047 <= dx ev2 <= 2047 -> -2047 <= dy ev2 <= 2047 ->
  -127 <= wheel ev2 <= 127 ->
  send_mouse_report stack ev1 g = send_mouse_report stack ev2 g ->
  ev1 = ev2.
Proof.
  intros Hm Hx1 Hy1 Hw1 Hx2 Hy2 Hw2.
  rewrite !(send_mouse_report_protocol_run stack _ g Hm). cbv zeta.
  rewrite !(clamp_id (-2047) 2047), !(clamp_id (-127) 127) by assumption.
  intros [= Hb Hw Hb2 Hb3 Hb4].
  destruct (unpack_packed_fields _ _ Hx1 Hy1) as [Hux1 Huy1].
  destruct (unpack_packed_fields _ _ Hx2 Hy2) as [Hux2 Huy2].
  cbv zeta in *. rewrite Hb2, Hb3 in Hux1. rewrite Hb3, Hb4 in Huy1.
  destruct (wheel_facts _ Hw1) as (_ & Hs1 & _).
  destruct (wheel_facts _ Hw2) as (_ & Hs2 & _).
  rewrite Hw in Hs1.
  destruct ev1, ev2; cbn [button_bm wheel dx dy] in *. congruence.
Qed.

Lemma send_mouse_report_injective_witness :
  MouseEvent 1 2 3 4 = MouseEvent 1 2 3 4.
Proof.
  apply (send_mouse_report_injective no_stack _ _ init_globals);
    cbn; try lia; reflexivity.
Defined.

(** X10.  No uninitialised byte reaches the transport: whatever the local
    arrays held before they were written, the mouse encoder in either mode,
    and the keyboard encoder on an event with its six key codes, make the
    same transport call. *)
Theorem encoders_ignore_stack_contents stack1 stack2 g :
  (forall ev, send_mouse_report stack1 ev g = send_mouse_report stack2 ev g)
  /\ (forall ev, length (keys ev) = 6%nat ->
        send_keyboard stack1 ev g = send_keyboard stack2 ev g).
Proof.
  split.
  - intros ev. destruct (report_mode g) eqn:Hm.
    + rewrite !(send_mouse_report_protocol_run _ ev g Hm). reflexivity.
    + rewrite !(send_mouse_report_boot_run _ ev g Hm). reflexivity.
  - intros ev Hlen. rewrite !(send_keyboard_run _ ev g Hlen). reflexivity.
Qed.

Lemma send_keyboard_shape stack ev g :
  exists call,
    send_keyboard stack ev g = Run (Some tt) g [call]
    /\ is_send_call call = true.
Proof.
  cbv [send_keyboard mbind M_bind get emit]. cbn [value final trace app].
  destruct (mode_eqb (report_mode g) REPORT_MODE_BOOT);
    eexists; split; reflexivity.
Qed.

(** X11.  A mouse or keyboard event on the bus: when its report is
    configured, the handler makes exactly the encoder's single transport
    call, leaves the globals alone and returns [false]; when it is not, the
    event reaches no send path and runs into the unhandled-event
    assertion. *)
Theorem event_handler_hid_event cfg stack ext g :
  (forall e,
     let r := event_handler cfg stack ext (hid_mouse_event_of e) g in
     final r = g
     /\ if CONFIG_DESKTOP_HID_MOUSE cfg
        then value r = Some false
             /\ trace r = trace (send_mouse_report stack e g)
             /\ length (send_calls (trace r)) = 1%nat
        else trace r = []
             /\ value r = if CONFIG_ASSERT cfg then None else Some false)
  /\ (forall e,
        let r := event_handler cfg stack ext (hid_keyboard_event_of e) g in
        final r = g
        /\ if CONFIG_DESKTOP_HID_KEYBOARD cfg
           then value r = Some false
                /\ trace r = trace (send_keyboard stack e g)
                /\ length (send_calls (trace r)) = 1%nat
           else trace r = []
                /\ value r = if CONFIG_ASSERT cfg then None else Some false).
Proof.
  split.
  - intros e. cbv zeta. cbn [event_handler].
    destruct (CONFIG_DESKTOP_HID_MOUSE cfg).
    + cbv [mbind M_bind mret M_ret].
      destruct (report_mode g) eqn:Hm.
      * rewrite (send_mouse_report_protocol_run stack e g Hm).
        cbn. repeat split.
      * rewrite (send_mouse_report_boot_run stack e g Hm).
        cbn. repeat split.
    + cbv [__ASSERT_NO_MSG mbind M_bind mret M_ret halt].
      destruct (CONFIG_ASSERT cfg); cbn; repeat split.
  - intros e. cbv zeta. cbn [event_handler].
    destruct (CONFIG_DESKTOP_HID_KEYBOARD cfg).
    + cbv [mbind M_bind mret M_ret].
      destruct (send_keyboard_shape stack e g) as (call & -> & Hcall).
      cbn [value final trace app send_calls List.filter].
      rewrite Hcall. repeat split.
    + cbv [__ASSERT_NO_MSG mbind M_bind mret M_ret halt].
      destruct (CONFIG_ASSERT cfg); cbn; repeat split.
Qed.

(** ** Initialisation and the registry *)

(** X12.  [module_init] makes one [hids_init] call and returns its result.
    The input reports it declares are the configured ones among Mouse,
    Keyboard and MediaPlayer, in that order, with sizes 5, 9 and 1; the
    index it stores for each of them is the position of that report in the
    declared list; indices of reports that are not configured, the protocol
    mode and the subscription matrix are left as they were; and the boot
    mouse and boot keyboard callbacks are registered exactly for the
    configured ones. *)
Theorem module_init_registry cfg ext g :
  let r := module_init cfg ext g in
  exists init,
    trace r = [hids_init init]
    /\ value r = Some (hids_init_ret ext)
    /\ inp_rep_group_init init =
       (if CONFIG_DESKTOP_HID_MOUSE cfg
        then [InpRep REPORT_ID_MOUSE 5 mouse_notif_handler_cb (Some [0x01])]
        else [])
       ++ (if CONFIG_DESKTOP_HID_KEYBOARD cfg
           then [InpRep REPORT_ID_KEYBOARD 9 keyboard_notif_handler_cb None]
           else [])
       ++ (if CONFIG_DESKTOP_HID_MPLAYER cfg
           then [InpRep REPORT_ID_MPLAYER 1 mplayer_notif_handler_cb None]
           else [])
    /\ length (inp_rep_group_init init) = configured_count cfg
    /\ (forall rep, In rep (inp_rep_group_init init) ->
          inp_rep_group_init init !! report_index (final r) (id rep)
          = Some rep)
    /\ (forall i, ~ In i (map id (inp_rep_group_init init)) ->
          report_index (final r) i = report_index g i)
    /\ report_mode (final r) = report_mode g
    /\ report_enabled (final r) = report_enabled g
    /\ initialized (final r) = initialized g
    /\ is_mouse init = CONFIG_DESKTOP_HID_MOUSE cfg
    /\ is_kb init = CONFIG_DESKTOP_HID_KEYBOARD cfg
    /\ boot_mouse_notif_handler_f init =
       (if CONFIG_DESKTOP_HID_MOUSE cfg
        then Some boot_mouse_notif_handler_cb else None)
    /\ boot_kb_notif_handler_f init =
       (if CONFIG_DESKTOP_HID_KEYBOARD cfg
        then Some boot_keyboard_notif_handler_cb else None).
Proof.
  destruct cfg as [cm ck cp ca], g as [ri rm re ini].
  destruct cm, ck, cp; eexists; cbn;
    repeat (split; [reflexivity|]);
    (split; [intros rep Hin;
             repeat (destruct Hin as [<-|Hin]; [reflexivity|]);
             destruct Hin|]);
    (split; [intros i Hi; destruct i; try reflexivity;
             exfalso; apply Hi; cbn; tauto|]);
    repeat split.
Qed.

Lemma module_init_hids_init_calls cfg ext g :
  exists init,
    hids_init_calls (trace (module_init cfg ext g)) = [init]
    /\ trace (module_init cfg ext g) = [hids_init init]
    /\ value (module_init cfg ext g) = Some (hids_init_ret ext)
    /\ initialized (final (module_init cfg ext g)) = initialized g
    /\ report_mode (final (module_init cfg ext g)) = report_mode g
    /\ report_enabled (final (module_init cfg ext g)) = report_enabled g
    /\ (CONFIG_DESKTOP_HID_MOUSE cfg = true ->
        exists rep,
          inp_rep_group_init init
            !! report_index (final (module_init cfg ext g)) REPORT_ID_MOUSE
          = Some rep
          /\ id rep = REPORT_ID_MOUSE /\ size rep = 5)
    /\ (CONFIG_DESKTOP_HID_KEYBOARD cfg = true ->
        exists rep,
          inp_rep_group_init init
            !! report_index (final (module_init cfg ext g)) REPORT_ID_KEYBOARD
          = Some rep
          /\ id rep = REPORT_ID_KEYBOARD /\ size rep = 9).
Proof.
  destruct cfg as [cm ck cp ca], g as [ri rm re ini].
  destruct cm, ck, cp; eexists; cbn; repeat split;
    try discriminate; intros _; eexists; repeat split.
Qed.

Lemma event_handler_ready_run cfg stack ext g :
  CONFIG_ASSERT cfg && initialized g = false ->
  let r := event_handler cfg stack ext ble_state_ready g in
  let ri := module_init cfg ext (with_initialized g true) in
  r = Run (Some false) (final ri)
        (trace ri
         ++ if hids_init_ret ext =? 0
            then [SYS_LOG_INF "service initialized";
                  module_set_state MODULE_STATE_READY]
            else [SYS_LOG_ERR "service init failed"]).
Proof.
  intros Hok. cbv zeta. unfold ble_state_ready. cbn [event_handler].
  change (check_state _ _ _) with true. cbv iota.
  cbv [mbind M_bind get __ASSERT_NO_MSG mret M_ret halt set_initialized put
       emit].
  cbn [value final trace app].
  destruct (CONFIG_ASSERT cfg), (initialized g); try discriminate Hok;
    cbn [negb value final trace app].
  all: destruct (module_init_hids_init_calls cfg ext (with_initialized g true))
      as (init & _ & Ht & Hv & _).
  all: rewrite Hv, Ht; cbn [app].
  all: destruct (hids_init_ret ext =? 0); reflexivity.
Qed.

Lemma event_handler_ready_halt cfg stack ext g :
  CONFIG_ASSERT cfg && initialized g = true ->
  event_handler cfg stack ext ble_state_ready g = Run None g [].
Proof.
  intros Hh. apply andb_prop in Hh as [Ha Hi].
  unfold ble_state_ready. cbn [event_handler].
  change (check_state _ _ _) with true. cbv iota.
  cbv [mbind M_bind get __ASSERT_NO_MSG mret M_ret halt].
  cbn [value final trace app]. rewrite Ha, Hi. reflexivity.
Qed.

Lemma check_state_ready e :
  check_state e "ble_state" MODULE_STATE_READY = true ->
  module_state_event_of e = ble_state_ready.
Proof.
  unfold check_state, ble_state_ready. destruct e as [mid st].
  cbn [mstate module_id]. intros H. apply andb_prop in H as [Hs Hm].
  apply String.eqb_eq in Hm as ->.
  destruct st; [reflexivity | discriminate Hs].
Qed.

(** X13.  The first "ble_state ready" event initialises the service: one
    [hids_init] call; on success the module logs it and reports its state
    ready; when [hids_init] returns an error the module logs the failure and
    does not report ready.  Either way the handler returns [false], the
    module is marked initialised, and the protocol mode and the matrix are
    untouched. *)
Theorem event_handler_first_ready cfg stack ext g :
  initialized g = false ->
  let r := event_handler cfg stack ext ble_state_ready g in
  value r = Some false
  /\ length (hids_init_calls (trace r)) = 1%nat
  /\ (In (module_set_state MODULE_STATE_READY) (trace r)
      <-> hids_init_ret ext = 0)
  /\ (In (SYS_LOG_ERR "service init failed") (trace r)
      <-> hids_init_ret ext <> 0)
  /\ initialized (final r) = true
  /\ report_mode (final r) = report_mode g
  /\ report_enabled (final r) = report_enabled g.
Proof.
  intros Hini. cbv zeta.
  rewrite (event_handler_ready_run cfg stack ext g)
    by (rewrite Hini; apply andb_false_r).
  cbv zeta. cbn [value final trace].
  destruct (module_init_hids_init_calls cfg ext (with_initialized g true))
    as (init & _ & Ht & _ & Hi & Hm & Hre & _).
  rewrite Ht, Hi, Hm, Hre. cbn [with_initialized initialized report_mode
                                 report_enabled app].
  destruct (Z.eqb_spec (hids_init_ret ext) 0) as [Hz|Hz]; cbn.
  - repeat split; try tauto; try congruence.
    intros [H|[H|[H|[]]]]; discriminate.
  - repeat split; try tauto; try congruence.
    intros [H|[H|[]]]; discriminate.
Qed.

Lemma event_handler_first_ready_witness :
  In (module_set_state MODULE_STATE_READY)
     (trace (event_handler mouse_keyboard_cfg no_stack no_ext ble_state_ready
               init_globals)).
Proof.
  destruct (event_handler_first_ready mouse_keyboard_cfg no_stack no_ext
              init_globals eq_refl) as (_ & _ & [_ H] & _).
  apply H. reflexivity.
Defined.

(** X14.  Initialisation happens once.  After a "ble_state ready" event the
    module is marked initialised, whatever [hids_init] returned; with
    assertions compiled in, a second such event stops at the assertion
    before any call is made and without touching the globals. *)
Theorem event_handler_ready_twice cfg stack ext g :
  CONFIG_ASSERT cfg = true ->
  let r1 := event_handler cfg stack ext ble_state_ready g in
  let r2 := event_handler cfg stack ext ble_state_ready (final r1) in
  initialized (final r1) = true
  /\ value r2 = None
  /\ trace r2 = []
  /\ final r2 = final r1.
Proof.
  intros Ha. cbv zeta.
  assert (initialized
            (final (event_handler cfg stack ext ble_state_ready g)) = true)
    as Hi1.
  { destruct (initialized g) eqn:Hi.
    - rewrite (event_handler_ready_halt cfg stack ext g)
        by (rewrite Ha, Hi; reflexivity).
      exact Hi.
    - rewrite (event_handler_ready_run cfg stack ext g)
        by (rewrite Hi; apply andb_false_r).
      cbv zeta. cbn [final].
      destruct (module_init_hids_init_calls cfg ext (with_initialized g true))
        as (init & _ & _ & _ & -> & _). reflexivity. }
  set (g1 := final (event_handler cfg stack ext ble_state_ready g)) in *.
  rewrite (event_handler_ready_halt cfg stack ext g1)
    by (rewrite Ha, Hi1; reflexivity).
  repeat split. exact Hi1.
Qed.

Lemma event_handler_ready_twice_witness :
  value (event_handler mouse_keyboard_cfg no_stack no_ext ble_state_ready
           (final (event_handler mouse_keyboard_cfg no_stack no_ext
                     ble_state_ready init_globals)))
  = None.
Proof.
  destruct (event_handler_ready_twice mouse_keyboard_cfg no_stack no_ext
              init_globals eq_refl) as (_ & H & _).
  exact H.
Defined.

(** X15.  After initialisation, a report-mode send goes to the index at
    which [hids_init] was told about that very report: for a mouse event the
    entry at the index passed to the transport is the Mouse report, whose
    declared size is the length sent; likewise for a keyboard event with its
    six key codes.  The buffer holds exactly that many bytes. *)
Theorem send_after_init_uses_declared_report cfg stack ext g :
  initialized g = false ->
  report_mode g = REPORT_MODE_PROTOCOL ->
  let r1 := event_handler cfg stack ext ble_state_ready g in
  exists init,
    hids_init_calls (trace r1) = [init]
    /\ (CONFIG_DESKTOP_HID_MOUSE cfg = true ->
        forall e, exists idx buf len rep,
          trace (event_handler cfg stack ext (hid_mouse_event_of e)
                   (final r1))
          = [hids_inp_rep_send idx buf len mouse_report_sent_cb]
          /\ inp_rep_group_init init !! idx = Some rep
          /\ id rep = REPORT_ID_MOUSE
          /\ size rep = len
          /\ Z.of_nat (length buf) = len)
    /\ (CONFIG_DESKTOP_HID_KEYBOARD cfg = true ->
        forall e, length (keys e) = 6%nat -> exists idx buf len rep,
          trace (event_handler cfg stack ext (hid_keyboard_event_of e)
                   (final r1))
          = [hids_inp_rep_send idx buf len keyboard_report_sent_cb]
          /\ inp_rep_group_init init !! idx = Some rep
          /\ id rep = REPORT_ID_KEYBOARD
          /\ size rep = len
          /\ Z.of_nat (length buf) = len).
Proof.
  intros Hini Hm. cbv zeta.
  rewrite (event_handler_ready_run cfg stack ext g)
    by (rewrite Hini; apply andb_false_r).
  cbv zeta. cbn [final trace].
  destruct (module_init_hids_init_calls cfg ext (with_initialized g true))
    as (init & _ & Ht & _ & _ & Hm' & _ & Hmouse & Hkbd).
  cbn [with_initialized report_mode] in Hm'. rewrite Hm in Hm'.
  exists init. rewrite Ht. split.
  { destruct (hids_init_ret ext =? 0); reflexivity. }
  split.
  - intros Hc e. destruct (Hmouse Hc) as (rep & Hl & Hid & Hsz).
    cbn [event_handler]. rewrite Hc. cbv [mbind M_bind mret M_ret].
    rewrite (send_mouse_report_protocol_run stack e _ Hm').
    cbn [value final trace app].
    eexists _, _, _, rep. split; [reflexivity|].
    repeat split; assumption.
  - intros Hc e Hlen. destruct (Hkbd Hc) as (rep & Hl & Hid & Hsz).
    cbn [event_handler]. rewrite Hc. cbv [mbind M_bind mret M_ret].
    rewrite (send_keyboard_run stack e _ Hlen). cbv zeta.
    rewrite Hm'. cbn [mode_eqb value final trace app].
    eexists _, _, _, rep. split; [reflexivity|].
    repeat split; try assumption.
    cbn [app length]. rewrite length_app, Hlen. reflexivity.
Qed.

Lemma send_after_init_uses_declared_report_witness :
  exists init,
    hids_init_calls
      (trace (event_handler mouse_keyboard_cfg no_stack no_ext ble_state_ready
                init_globals))
    = [init].
Proof.
  destruct (send_after_init_uses_declared_report mouse_keyboard_cfg no_stack
              no_ext init_globals eq_refl eq_refl) as (init & H & _).
  exists init. exact H.
Defined.

(** ** Peer events and what the bus cannot change *)

Lemma notify_hids_run cfg ext ev g :
  notify_hids cfg ext ev g =
  match state ev with
  | PEER_STATE_CONNECTED =>
      Run (Some tt) g
        (hids_notify_connected (conn_id ev)
         :: if hids_notify_connected_ret ext =? 0 then []
            else [SYS_LOG_ERR
                    "Failed to notify the HID service about the connection"])
  | PEER_STATE_DISCONNECTED =>
      Run (Some tt) g
        (hids_notify_disconnected (conn_id ev)
         :: if hids_notify_disconnected_ret ext =? 0 then []
            else [SYS_LOG_ERR
                    "Failed to notify the HID service about the connection"])
  | PEER_STATE_SECURED => Run (Some tt) g []
  | PEER_STATE_other _ =>
      if CONFIG_ASSERT cfg then Run None g [] else Run (Some tt) g []
  end.
Proof.
  cbv [notify_hids mbind M_bind mret M_ret emit __ASSERT_NO_MSG halt].
  destruct (state ev); cbn [value final trace app negb].
  - destruct (hids_notify_connected_ret ext =? 0); reflexivity.
  - destruct (hids_notify_disconnected_ret ext =? 0); reflexivity.
  - reflexivity.
  - destruct (CONFIG_ASSERT cfg); reflexivity.
Qed.

(** X16.  A peer event makes at most one transport call: the
    connection-registered call for a connected peer, the converse for a
    disconnected one, none for a secured one.  An error is logged exactly
    when that call returned non-zero, and nothing else is done about it: no
    retry, no send, no change of the globals, and the handler still returns
    [false]. *)
Theorem event_handler_peer_event cfg stack ext ev g :
  state ev = PEER_STATE_CONNECTED \/ state ev = PEER_STATE_DISCONNECTED
  \/ state ev = PEER_STATE_SECURED ->
  let r := event_handler cfg stack ext (ble_peer_event_of ev) g in
  let ret := match state ev with
             | PEER_STATE_CONNECTED => hids_notify_connected_ret ext
             | PEER_STATE_DISCONNECTED => hids_notify_disconnected_ret ext
             | _ => 0
             end in
  value r = Some false
  /\ final r = g
  /\ send_calls (trace r) = []
  /\ subscription_events (trace r) = []
  /\ List.filter (fun e => match e with
                           | hids_notify_connected _
                           | hids_notify_disconnected _ => true
                           | _ => false
                           end) (trace r)
     = match state ev with
       | PEER_STATE_CONNECTED => [hids_notify_connected (conn_id ev)]
       | PEER_STATE_DISCONNECTED => [hids_notify_disconnected (conn_id ev)]
       | _ => []
       end
  /\ (log_lines (trace r) <> [] <-> ret <> 0).
Proof.
  intros Hst. cbv zeta. cbn [event_handler]. cbv [mbind M_bind mret M_ret].
  rewrite notify_hids_run.
  destruct Hst as [->|[->| ->]]; cbn [value final trace app].
  - destruct (Z.eqb_spec (hids_notify_connected_ret ext) 0) as [->|Hz];
      cbn; repeat split; try tauto; try congruence.
  - destruct (Z.eqb_spec (hids_notify_disconnected_ret ext) 0) as [->|Hz];
      cbn; repeat split; try tauto; try congruence.
  - cbn; repeat split; try tauto; try congruence.
Qed.

Lemma event_handler_peer_event_witness :
  log_lines
    (trace (event_handler mouse_keyboard_cfg no_stack (Externals (-5) 0 0)
              (ble_peer_event_of (PeerEvent PEER_STATE_CONNECTED 3))
              init_globals))
  <> [].
Proof.
  destruct (event_handler_peer_event mouse_keyboard_cfg no_stack
              (Externals (-5) 0 0) (PeerEvent PEER_STATE_CONNECTED 3)
              init_globals) as (_ & _ & _ & _ & _ & [_ H]).
  - left. reflexivity.
  - apply H. cbn. discriminate.
Defined.

Lemma event_handler_unhandled_event_run cfg stack ext type_name g :
  trace (event_handler cfg stack ext (other_event_of type_name) g) = []
  /\ final (event_handler cfg stack ext (other_event_of type_name) g) = g
  /\ value (event_handler cfg stack ext (other_event_of type_name) g)
     = if CONFIG_ASSERT cfg then None else Some false.
Proof.
  cbv [event_handler __ASSERT_NO_MSG mbind mret M_bind M_ret halt].
  destruct (CONFIG_ASSERT cfg); cbn; repeat split.
Qed.

(** X17.  Nothing that arrives over the event bus changes the reconciler's
    state or announces a subscription: for every event, of a handled type or
    not, the protocol mode and the subscription matrix after the handler are
    what they were before, no subscription change is submitted, and the
    handler, when it returns, returns [false]. *)
Theorem event_handler_keeps_subscriptions cfg stack ext eh g :
  let r := event_handler cfg stack ext eh g in
  report_mode (final r) = report_mode g
  /\ report_enabled (final r) = report_enabled g
  /\ subscription_events (trace r) = []
  /\ (value r = Some false \/ value r = None).
Proof.
  cbv zeta. destruct eh as [e|e|e|e|name].
  - cbn [event_handler]. destruct (CONFIG_DESKTOP_HID_MOUSE cfg).
    + cbv [mbind M_bind mret M_ret]. destruct (report_mode g) eqn:Hm.
      * rewrite (send_mouse_report_protocol_run stack e g Hm).
        cbn; repeat split; auto.
      * rewrite (send_mouse_report_boot_run stack e g Hm).
        cbn; repeat split; auto.
    + cbv [__ASSERT_NO_MSG mbind M_bind mret M_ret halt].
      destruct (CONFIG_ASSERT cfg); cbn; repeat split; auto.
  - cbn [event_handler]. destruct (CONFIG_DESKTOP_HID_KEYBOARD cfg).
    + cbv [mbind M_bind mret M_ret].
      destruct (send_keyboard_shape stack e g) as (call & -> & Hcall).
      destruct call; try discriminate Hcall; cbn; repeat split; auto.
    + cbv [__ASSERT_NO_MSG mbind M_bind mret M_ret halt].
      destruct (CONFIG_ASSERT cfg); cbn; repeat split; auto.
  - cbn [event_handler]. cbv [mbind M_bind mret M_ret].
    rewrite notify_hids_run.
    destruct (state e); cbn [value final trace app].
    + destruct (_ =? 0); repeat split; auto.
    + destruct (_ =? 0); repeat split; auto.
    + repeat split; auto.
    + destruct (CONFIG_ASSERT cfg); repeat split; auto.
  - destruct (check_state e "ble_state" MODULE_STATE_READY) eqn:Hc.
    + rewrite (check_state_ready e Hc).
      destruct (CONFIG_ASSERT cfg && initialized g) eqn:Hh.
      * rewrite (event_handler_ready_halt cfg stack ext g Hh).
        repeat split; auto.
      * rewrite (event_handler_ready_run cfg stack ext g Hh). cbv zeta.
        cbn [value final trace].
        destruct (module_init_hids_init_calls cfg ext
                    (with_initialized g true))
          as (init & _ & Ht & _ & _ & Hm & Hre & _).
        rewrite Ht, Hm, Hre.
        destruct (hids_init_ret ext =? 0); cbn; repeat split; auto.
    + cbn [event_handler]. rewrite Hc. repeat split; auto.
  - destruct (event_handler_unhandled_event_run cfg stack ext name g)
      as (Ht & Hf & Hv).
    rewrite Ht, Hf, Hv. repeat split. destruct (CONFIG_ASSERT cfg); auto.
Qed.

(** ** The report map against the registry and the encoder *)

(** X18.  Under every configuration the report map is a well-formed item
    sequence with balanced collections; every field it declares belongs to a
    report that [module_init] registers, and for every registered report the
    registered size, in bits, is the total width of the input and output
    fields the map declares under that report's ID.  For the keyboard the
    input fields alone take 8 bytes, the length sent on the boot path. *)
Theorem report_map_matches_registry cfg ext g :
  exists fields init,
    read_report_map (report_map cfg) = Some fields
    /\ trace (module_init cfg ext g) = [hids_init init]
    /\ (forall rep, In rep (inp_rep_group_init init) ->
          8 * size rep
          = bits_of (fields_of InputField (report_id_value (id rep)) fields)
            + bits_of (fields_of OutputField (report_id_value (id rep))
                         fields))
    /\ (forall f, In f fields ->
          exists rep, In rep (inp_rep_group_init init)
                      /\ f_report_id f = report_id_value (id rep))
    /\ (CONFIG_DESKTOP_HID_KEYBOARD cfg = true ->
        bits_of (fields_of InputField (report_id_value REPORT_ID_KEYBOARD)
                   fields)
        = 8 * (REPORT_SIZE_KEYBOARD - 1)).
Proof.
  destruct cfg as [cm ck cp ca], g as [ri rm re ini].
  destruct cm, ck, cp; eexists _, _;
    (split; [vm_compute; reflexivity|]);
    (split; [reflexivity|]);
    (split; [intros rep Hin; cbn in Hin;
             repeat (destruct Hin as [<-|Hin]; [reflexivity|]);
             destruct Hin|]);
    (split; [intros f Hin; cbn in Hin;
             repeat (destruct Hin as [<-|Hin];
                     [find_registered_report|]);
             destruct Hin|]);
    first [intros _; reflexivity | intros Hk; discriminate Hk].
Qed.

(** X19.  On a build with the mouse report, the report map declares for
    report ID 1 eight 1-bit buttons, one 8-bit wheel and two 12-bit axes,
    40 bits in all, which is the buffer the encoder sends; and whatever the
    event, the wheel and the two axes the encoder puts in the buffer lie
    within the logical ranges the map declares for them. *)
Theorem mouse_report_within_declared_ranges cfg stack ev g :
  CONFIG_DESKTOP_HID_MOUSE cfg = true ->
  report_mode g = REPORT_MODE_PROTOCOL ->
  exists fields buttons_f wheel_f axes_f byte0 byte1 byte2 byte3 byte4,
    read_report_map (report_map cfg) = Some fields
    /\ fields_of InputField (report_id_value REPORT_ID_MOUSE) fields
       = [buttons_f; wheel_f; axes_f]
    /\ (f_size buttons_f, f_count buttons_f) = (1, 8)
    /\ (f_size wheel_f, f_count wheel_f) = (8, 1)
    /\ (f_size axes_f, f_count axes_f) = (12, 2)
    /\ trace (send_mouse_report stack ev g)
       = [hids_inp_rep_send (report_index g REPORT_ID_MOUSE)
            [byte0; byte1; byte2; byte3; byte4] 5 mouse_report_sent_cb]
    /\ bits_of [buttons_f; wheel_f; axes_f] = 8 * 5
    /\ within wheel_f (s8 byte1)
    /\ within axes_f (unpack_x byte2 byte3)
    /\ within axes_f (unpack_y byte3 byte4).
Proof.
  intros Hc Hm.
  pose proof (clamp_range (-2047) 2047 (dx ev) ltac:(lia)) as Hx.
  pose proof (clamp_range (-2047) 2047 (dy ev) ltac:(lia)) as Hy.
  pose proof (clamp_range (-127) 127 (wheel ev) ltac:(lia)) as Hw.
  destruct (unpack_packed_fields _ _ Hx Hy) as [Hux Huy].
  destruct (wheel_facts _ Hw) as (_ & Hs & _).
  cbv zeta in Hux, Huy.
  rewrite (send_mouse_report_protocol_run stack ev g Hm). cbn [trace].
  destruct cfg as [cm ck cp ca]. cbn in Hc. subst cm.
  destruct ck, cp; eexists _, _, _, _, _, _, _, _, _;
    (split; [vm_compute; reflexivity|]);
    (split; [reflexivity|]);
    repeat (split; [reflexivity|]);
    unfold within; cbn [f_min f_max];
    rewrite ?Hux, ?Huy, ?Hs; repeat split; lia.
Qed.

Lemma mouse_report_within_declared_ranges_witness :
  exists fields,
    read_report_map (report_map mouse_keyboard_cfg) = Some fields
    /\ bits_of (fields_of InputField 1 fields) = 40.
Proof.
  destruct (mouse_report_within_declared_ranges mouse_keyboard_cfg no_stack
              (MouseEvent 0 0 9999 (-9999)) init_globals eq_refl eq_refl)
    as (fields & fb & fw & fa & b0 & b1 & b2 & b3 & b4
        & Hr & Hf & _ & _ & _ & _ & Hbits & _).
  exists fields. split; [exact Hr|].
  cbn [report_id_value] in Hf. rewrite Hf. exact Hbits.
Defined.

(** ** Requests the module has no send path for *)




